(** * SECDownload: a shallow embedding of [download.py]

    The module [download.py] builds the list of SEC daily-index URLs of a
    date range, fetches them, filters the index rows by form type, fetches
    every filing, extracts a fixed set of fields by scanning tags line by
    line, and returns one table.

    Modelling conventions.
    - A Python [str] is a [string]; its characters are the code points
      below 256, which covers every literal of the source.
    - A [dict] with string keys is a [gmap string _]; the insertion order
      that [pandas.DataFrame] turns into the column order is kept next to
      it as a list of keys.
    - Exceptions and the unbounded retry loop are results of type
      [outcome]; network requests are logged in an explicit state.
    - [pandas], [requests] and the holiday calendar are libraries: the few
      operations the source calls are modelled by what they compute, and
      the holiday calendar and the network are parameters. *)

From Stdlib Require Import ZArith Ascii String List Lia DecimalString Sorted.
From stdpp Require Import base option list strings gmap.

Local Open Scope string_scope.

(** ** Python built-ins on [str] *)

Module Py.

(** [sub in s] *)
Fixpoint contains (sub s : string) : bool :=
  String.prefix sub s ||
  match s with
  | EmptyString => false
  | String _ s' => contains sub s'
  end.

(** [s.count(sub)]: occurrences are counted left to right without overlap;
    [skip] is the number of characters of the current occurrence that are
    still to be passed over. *)
Fixpoint count_from (sub : string) (skip : nat) (s : string) : nat :=
  match s with
  | EmptyString => 0
  | String _ s' =>
      match skip with
      | S k => count_from sub k s'
      | O =>
          if String.prefix sub s
          then S (count_from sub (String.length sub - 1) s')
          else count_from sub 0 s'
      end
  end.

Definition count (sub s : string) : nat :=
  match sub with
  | EmptyString => S (String.length s)
  | _ => count_from sub 0 s
  end.

(** Line boundaries of [str.splitlines] among the code points below 256:
    LF, VT, FF, CR, FS, GS, RS and NEL. *)
Definition is_linebreak (c : ascii) : bool :=
  match nat_of_ascii c with
  | 10 | 11 | 12 | 13 | 28 | 29 | 30 | 133 => true
  | _ => false
  end.

Definition is_cr (c : ascii) : bool := Nat.eqb (nat_of_ascii c) 13.
Definition is_lf (c : ascii) : bool := Nat.eqb (nat_of_ascii c) 10.

(** [s.splitlines()]: a boundary ends the current line, CR LF is one
    boundary, and no empty line is produced after the last boundary. *)
Fixpoint splitlines (s : string) : list string :=
  match s with
  | EmptyString => []
  | String c s' =>
      if is_cr c then
        EmptyString ::
        match s' with
        | String c' s'' => if is_lf c' then splitlines s'' else splitlines s'
        | EmptyString => splitlines s'
        end
      else if is_linebreak c then EmptyString :: splitlines s'
      else
        match splitlines s' with
        | [] => [String c EmptyString]
        | l :: ls => String c l :: ls
        end
  end.

(** [s.split(sep)] for a non-empty separator. *)
Fixpoint split_from (sep : string) (skip : nat) (s : string) : list string :=
  match s with
  | EmptyString => [EmptyString]
  | String c s' =>
      match skip with
      | S k => split_from sep k s'
      | O =>
          if String.prefix sep s
          then EmptyString :: split_from sep (String.length sep - 1) s'
          else
            match split_from sep 0 s' with
            | [] => [String c EmptyString]
            | l :: ls => String c l :: ls
            end
      end
  end.

Definition split (sep s : string) : list string := split_from sep 0 s.

(** Whitespace of [str.strip] among the code points below 256. *)
Definition isspace (c : ascii) : bool :=
  match nat_of_ascii c with
  | 9 | 10 | 11 | 12 | 13 | 28 | 29 | 30 | 31 | 32 | 133 | 160 => true
  | _ => false
  end.

Fixpoint lstrip (s : string) : string :=
  match s with
  | EmptyString => EmptyString
  | String c s' => if isspace c then lstrip s' else s
  end.

Fixpoint rstrip (s : string) : string :=
  match s with
  | EmptyString => EmptyString
  | String c s' =>
      match rstrip s' with
      | EmptyString => if isspace c then EmptyString else String c EmptyString
      | r => String c r
      end
  end.

Definition strip (s : string) : string := rstrip (lstrip s).

(** [filter(None, xs)] on a list of strings keeps the non-empty ones. *)
Definition truthy_str (s : string) : bool :=
  match s with
  | EmptyString => false
  | _ => true
  end.

Definition filter_None (xs : list string) : list string :=
  List.filter truthy_str xs.

(** Position of the first ['>'] of [s]. *)
Fixpoint find_gt (s : string) : option nat :=
  match s with
  | EmptyString => None
  | String c s' => if Ascii.eqb c ">" then Some 0 else S <$> find_gt s'
  end.

(** [re.sub('<[^>]+>', '', s)]: every leftmost match, a ['<'], one or more
    characters other than ['>'] and the next ['>'], is deleted. *)
Fixpoint re_sub_tags_from (skip : nat) (s : string) : string :=
  match s with
  | EmptyString => EmptyString
  | String c s' =>
      match skip with
      | S k => re_sub_tags_from k s'
      | O =>
          if Ascii.eqb c "<" then
            match find_gt s' with
            | Some (S n) => re_sub_tags_from (S (S n)) s'
            | _ => String c (re_sub_tags_from 0 s')
            end
          else String c (re_sub_tags_from 0 s')
      end
  end.

Definition re_sub_tags (s : string) : string := re_sub_tags_from 0 s.

(** [str(n)] for an integer. *)
Definition str_of_int (n : Z) : string := NilZero.string_of_int (Z.to_int n).

(** [s.zfill(w)], which is what [strftime] does for [%m] and [%d]. *)
Definition zfill (w : nat) (s : string) : string :=
  String.concat "" (repeat "0" (w - String.length s)) ++ s.

End Py.

(** ** Results of a call: a value, an exception, or a retry loop that is
    still running when the fuel of the model is used up *)

Inductive exn : Type :=
  | TypeError (msg : string)
  | ValueError
  | IndexError
  | KeyError (key : option string).

Inductive outcome (A : Type) : Type :=
  | Return (a : A)
  | Raise (e : exn)
  | OutOfFuel.

Arguments Return {A} a.
Arguments Raise {A} e.
Arguments OutOfFuel {A}.

Definition obind {A B : Type} (o : outcome A) (k : A -> outcome B) : outcome B :=
  match o with
  | Return a => k a
  | Raise e => Raise e
  | OutOfFuel => OutOfFuel
  end.

Notation "'try' x := o 'in' k" := (obind o (fun x => k))
  (at level 10, x name, o at level 100, k at level 200).

(** Values a caller may pass where the source expects a [str];
    [PyObject] stands for a value of any other type, with its truth
    value. *)
Inductive pyval : Type :=
  | PyNone
  | PyBool (b : bool)
  | PyInt (n : Z)
  | PyStr (s : string)
  | PyObject (truth : bool).

(** [bool(v)], the test of [if v:] *)
Definition truthy (v : pyval) : bool :=
  match v with
  | PyNone => false
  | PyBool b => b
  | PyInt n => negb (Z.eqb n 0)
  | PyStr s => Py.truthy_str s
  | PyObject truth => truth
  end.

(** [isinstance(v, str)] *)
Definition isinstance_str (v : pyval) : bool :=
  match v with
  | PyStr _ => true
  | _ => false
  end.

(** ** Calendar dates *)

Record date : Type := mkdate { year : Z; month : Z; day : Z }.

Global Instance date_eq_dec : EqDecision date.
Proof. solve_decision. Defined.

Module Calendar.

Definition is_leap (y : Z) : bool :=
  (Z.eqb (y mod 4) 0) && (negb (Z.eqb (y mod 100) 0) || Z.eqb (y mod 400) 0).

Definition days_in_month (y m : Z) : Z :=
  match m with
  | 2 => if is_leap y then 29 else 28
  | 4 | 6 | 9 | 11 => 30
  | _ => 31
  end%Z.

(** Days of the year that precede the first day of month [m]. *)
Definition days_before_month (y m : Z) : Z :=
  (match m with
   | 1 => 0 | 2 => 31 | 3 => 59 | 4 => 90 | 5 => 120 | 6 => 151
   | 7 => 181 | 8 => 212 | 9 => 243 | 10 => 273 | 11 => 304 | _ => 334
   end + (if (2 <? m) && is_leap y then 1 else 0))%Z.

Definition days_before_year (y : Z) : Z :=
  ((y - 1) * 365 + (y - 1) / 4 - (y - 1) / 100 + (y - 1) / 400)%Z.

(** [d.toordinal()]: day 1 is 0001-01-01. *)
Definition toordinal (d : date) : Z :=
  (days_before_year (year d) + days_before_month (year d) (month d) + day d)%Z.

(** [d.weekday()]: Monday is 0 and Sunday is 6. *)
Definition weekday (d : date) : Z := ((toordinal d + 6) mod 7)%Z.

Definition is_weekend (d : date) : bool := (5 <=? weekday d)%Z.

Definition valid (d : date) : Prop :=
  (1 <= month d <= 12 /\ 1 <= day d <= days_in_month (year d) (month d))%Z.

Definition next_day (d : date) : date :=
  if (day d <? days_in_month (year d) (month d))%Z
  then mkdate (year d) (month d) (day d + 1)
  else if (month d <? 12)%Z
       then mkdate (year d) (month d + 1) 1
       else mkdate (year d + 1) 1 1.

Fixpoint days_from (d : date) (n : nat) : list date :=
  match n with
  | O => []
  | S n' => d :: days_from (next_day d) n'
  end.

End Calendar.

(** The dates in the order of the calendar. *)
Definition date_lt (a b : date) : Prop :=
  (Calendar.toordinal a < Calendar.toordinal b)%Z.

Module Pandas.

(** [pd.date_range(start, end)]: every calendar day from [start] to [end],
    none when [end] is before [start]. *)
Definition date_range (start end_ : date) : list date :=
  Calendar.days_from start
    (Z.to_nat (Calendar.toordinal end_ - Calendar.toordinal start + 1)).

(** [pd.bdate_range(start, end)]: the days of that range from Monday to
    Friday. *)
Definition bdate_range (start end_ : date) : list date :=
  List.filter (fun d => negb (Calendar.is_weekend d)) (date_range start end_).

(** [index.min()] and [index.max()] of an ascending index; [None] is
    [NaT], the value they have on an empty index. *)
Definition index_min (ds : list date) : option date := head ds.
Definition index_max (ds : list date) : option date := last ds.

(** [series.isin(values)] at one element. *)
Definition isin (d : date) (values : list date) : bool :=
  existsb (fun h => bool_decide (h = d)) values.

(** [series.unique()]: the values in order of first appearance. *)
Fixpoint unique_from (seen : list date) (ds : list date) : list date :=
  match ds with
  | [] => []
  | d :: ds' =>
      if isin d seen then unique_from seen ds'
      else d :: unique_from (d :: seen) ds'
  end.

Definition unique (ds : list date) : list date := unique_from [] ds.

(** A cell of a table; [None] is a missing value. *)
Definition cell : Type := option string.

Record DataFrame : Type := mkframe {
  columns : list string;
  rows : list (list cell)
}.

Definition pad (w : nat) (r : list cell) : list cell :=
  r ++ repeat None (w - length r).

(** [pd.DataFrame(data, columns=cols)] for a list of rows: short rows are
    filled with missing values up to the longest row, and the width must
    be the number of column names. *)
Definition DataFrame_of_rows (data : list (list string)) (cols : list string)
  : outcome DataFrame :=
  match data with
  | [] => Return (mkframe cols [])
  | _ =>
      let w := max_list (map length data) in
      if Nat.eqb w (length cols)
      then Return (mkframe cols (map (fun r => pad w (map Some r)) data))
      else Raise ValueError
  end.

(** [pd.DataFrame(d)] for a dict of lists whose keys, in insertion order,
    are [keys]: the lists must have one length. *)
Definition DataFrame_of_dict (keys : list string) (d : gmap string (list string))
  : outcome DataFrame :=
  let cols := map (fun k => default [] (d !! k)) keys in
  match cols with
  | [] => Return (mkframe keys [])
  | c :: cs =>
      if forallb (fun c' => Nat.eqb (length c') (length c)) cs
      then Return (mkframe keys
                     (map (fun i => map (fun c' : list string => c' !! i) cols)
                          (seq 0 (length c))))
      else Raise ValueError
  end.

Fixpoint index_of (col : string) (cols : list string) : option nat :=
  match cols with
  | [] => None
  | c :: cs => if String.eqb c col then Some 0 else S <$> index_of col cs
  end.

(** The cell of row [r] of [df] under the column named [col]. *)
Definition get (df : DataFrame) (r : list cell) (col : string) : cell :=
  match index_of col (columns df) with
  | Some j => default None (r !! j)
  | None => None
  end.

(** [df.append(others, ignore_index=True, sort=False)]: the rows of [df]
    and of [others] in order, aligned on the union of the columns. *)
Definition append (df : DataFrame) (others : list DataFrame) : DataFrame :=
  let cols :=
    fold_left
      (fun acc o =>
         (acc ++ List.filter (fun c => negb (existsb (String.eqb c) acc)) (columns o))%list)
      others (columns df) in
  mkframe cols
    (concat (map (fun o => map (fun r => map (get o r) cols) (rows o))
                 (df :: others))).

(** [df.loc[df[col] == v].reset_index(drop=True)] *)
Definition loc_eq (col v : string) (df : DataFrame) : outcome DataFrame :=
  match index_of col (columns df) with
  | None => Raise (KeyError (Some col))
  | Some _ =>
      Return (mkframe (columns df)
                (List.filter (fun r => bool_decide (get df r col = Some v)) (rows df)))
  end.

(** [list(df[col])] *)
Definition column (col : string) (df : DataFrame) : outcome (list cell) :=
  match index_of col (columns df) with
  | None => Raise (KeyError (Some col))
  | Some _ => Return (map (fun r => get df r col) (rows df))
  end.

(** [df[col].replace(mapping, inplace=True)]: a cell equal to a key of
    [mapping] takes the value of that key. *)
Definition replace_value (mapping : list (string * string)) (c : cell) : cell :=
  match c with
  | None => None
  | Some v =>
      match List.find (fun kv => String.eqb (fst kv) v) mapping with
      | Some kv => Some (snd kv)
      | None => Some v
      end
  end.

Definition replace (col : string) (mapping : list (string * string))
  (df : DataFrame) : outcome DataFrame :=
  match index_of col (columns df) with
  | None => Raise (KeyError (Some col))
  | Some j =>
      Return (mkframe (columns df)
                (map (fun r => alter (replace_value mapping) j r) (rows df)))
  end.

End Pandas.

(** ** The network

    A request either fails in the transport or delivers a body.  The
    state of a run is the log of the URLs requested so far, latest first;
    the pool of nine workers is modelled by its tasks run in the order of
    [imap], which is the order of the results.  The order of the requests
    inside one batch is a choice of this model, not of the source: what is
    proved of a batch does not depend on it. *)

Inductive response : Type :=
  | TransportError
  | Body (text : string).

Definition M (A : Type) : Type := list string -> outcome A * list string.

Definition ret {A : Type} (a : A) : M A := fun log => (Return a, log).

Definition raise {A : Type} (e : exn) : M A := fun log => (Raise e, log).

Definition lift {A : Type} (o : outcome A) : M A := fun log => (o, log).

Definition bind {A B : Type} (m : M A) (k : A -> M B) : M B :=
  fun log =>
    match m log with
    | (Return a, log') => k a log'
    | (Raise e, log') => (Raise e, log')
    | (OutOfFuel, log') => (OutOfFuel, log')
    end.

Notation "'run' x := m 'in' k" := (bind m (fun x => k))
  (at level 10, x name, m at level 100, k at level 200).

(** A list comprehension whose element expression may raise. *)
Fixpoint for_each {A B : Type} (f : A -> outcome B) (xs : list A)
  : outcome (list B) :=
  match xs with
  | [] => Return []
  | x :: xs' =>
      try y := f x in
      try ys := for_each f xs' in
      Return (y :: ys)
  end.

(** The same for an expression that uses the network. *)
Fixpoint for_each_M {A B : Type} (f : A -> M B) (xs : list A) : M (list B) :=
  match xs with
  | [] => ret []
  | x :: xs' =>
      run y := f x in
      run ys := for_each_M f xs' in
      ret (y :: ys)
  end.

(** ** The extraction scan of [_form_qc] *)

Record scan_state : Type := mkstate {
  datadict : gmap string (list string);
  nextline : bool;
  label : option string
}.

(** The keys of [datadict] in insertion order. *)
Definition datadict_keys : list string :=
  [ "URL"; "Date"; "Issuer CIK"; "Issuer Name"; "Issuer Ticker"; "Owner CIK";
    "Owner Name"; "Director"; "Officer"; "Ten % Owner"; "Officer Title";
    "Transaction Date"; "Transaction Code"; "Number of Shares";
    "Price per Share"; "Shares Owned Following Trans"; "Ownership Nature" ].

Definition datadict_init : gmap string (list string) :=
  list_to_map (map (fun k => (k, [])) datadict_keys).

Definition searchlist : list string :=
  [ "<periodOfReport>"; "<issuerCik>"; "<issuerName>";
    "<issuerTradingSymbol>"; "<rptOwnerCik>"; "<rptOwnerName>";
    "<transactionDate>"; "<transactionShares>";
    "<transactionPricePerShare>";
    "<sharesOwnedFollowingTransaction>";
    "<directOrIndirectOwnership>"; "<officerTitle>";
    "<isTenPercentOwner>" ].

Definition refstrings1 : list string :=
  [ "<isDirector>1</isDirector>"; "<isOfficer>1</isOfficer>";
    "<isDirector>True</isDirector>";
    "<isOfficer>True</isOfficer>";
    "<isDirector>true</isDirector>";
    "<isOfficer>true</isOfficer>" ].

Definition refstrings2 : list string :=
  [ "<transactionCode>S</transactionCode>";
    "<transactionCode>P</transactionCode>" ].

(** Where the value of a tag is: on the line of the tag, or on the line
    that follows it. *)
Inductive shape : Type := SameLine | NextLine.

(** The chain of [if ... continue] tests of the loop body, in the order of
    the source: the tag looked for, the key it fills, and where the value
    is. *)
Definition chain : list (string * string * shape) :=
  [ ("<periodOfReport>", "Date", SameLine);
    ("<issuerCik>", "Issuer CIK", SameLine);
    ("<issuerName>", "Issuer Name", SameLine);
    ("<issuerTradingSymbol>", "Issuer Ticker", SameLine);
    ("<rptOwnerCik>", "Owner CIK", SameLine);
    ("<rptOwnerName>", "Owner Name", SameLine);
    ("<isDirector>", "Director", SameLine);
    ("<isOfficer>", "Officer", SameLine);
    ("<isTenPercentOwner>", "Ten % Owner", SameLine);
    ("<officerTitle>", "Officer Title", SameLine);
    ("<transactionDate>", "Transaction Date", NextLine);
    ("<transactionCode>", "Transaction Code", SameLine);
    ("<transactionShares>", "Number of Shares", NextLine);
    ("<transactionPricePerShare>", "Price per Share", NextLine);
    ("<sharesOwnedFollowingTransaction>", "Shares Owned Following Trans", NextLine);
    ("<directOrIndirectOwnership>", "Ownership Nature", NextLine) ].

(** [d[k]] *)
Definition getitem (d : gmap string (list string)) (k : option string)
  : outcome (list string) :=
  match k with
  | Some key =>
      match d !! key with
      | Some l => Return l
      | None => Raise (KeyError k)
      end
  | None => Raise (KeyError k)
  end.

(** [_re.sub('<[^>]+>', '', line).strip()] *)
Definition line_value (line : string) : string :=
  Py.strip (Py.re_sub_tags line).

(** [d[k].append(v)] *)
Definition append_value (d : gmap string (list string)) (k : option string)
  (v : string) : outcome (gmap string (list string)) :=
  try l := getitem d k in
  Return (<[default "" k := (l ++ [v])%list]> d).

(** The tests of the chain from [tests] on, for one line; a test that
    fires ends the iteration, as its [continue] does. *)
Fixpoint scan_chain (tests : list (string * string * shape)) (line : string)
  (st : scan_state) : outcome scan_state :=
  match tests with
  | [] => Return st
  | (tag, key, sh) :: rest =>
      if Py.contains tag line then
        try u := getitem (datadict st) (Some "URL") in
        try c := getitem (datadict st) (Some key) in
        if negb (Nat.eqb (length u) (length c)) then
          match sh with
          | SameLine =>
              try d := append_value (datadict st) (Some key) (line_value line) in
              Return (mkstate d (nextline st) (label st))
          | NextLine => Return (mkstate (datadict st) true (Some key))
          end
        else scan_chain rest line st
      else scan_chain rest line st
  end.

(** One iteration of [for line in formtext]. *)
Definition scan_line (st : scan_state) (line : string) : outcome scan_state :=
  if nextline st then
    try d := append_value (datadict st) (label st) (line_value line) in
    Return (mkstate d false (Some "ERROR"))
  else scan_chain chain line st.

Fixpoint scan (lines : list string) (st : scan_state) : outcome scan_state :=
  match lines with
  | [] => Return st
  | line :: lines' =>
      try st' := scan_line st line in
      scan lines' st'
  end.

(** The qualification test of [_form_qc]. *)
Definition qualifies (formtext : string) : bool :=
  existsb (fun s => Py.contains s formtext) refstrings1 &&
  existsb (fun p => Py.contains p formtext) refstrings2 &&
  Nat.eqb (Py.count "<reportingOwner>" formtext) 1 &&
  Nat.eqb (Py.count "<nonDerivativeTransaction>" formtext) 1 &&
  forallb (fun s => Py.contains s formtext) searchlist.

(** The state of the scan when the loop starts: [url] has been appended
    under ["URL"]. *)
Definition scan_start (url : string) : outcome scan_state :=
  try d := append_value datadict_init (Some "URL") url in
  Return (mkstate d false None).

Definition _form_qc (formtext url : string) : outcome (option Pandas.DataFrame) :=
  if qualifies formtext then
    let lines := Py.filter_None (Py.splitlines formtext) in
    try st0 := scan_start url in
    try st := scan lines st0 in
    try df := Pandas.DataFrame_of_dict datadict_keys (datadict st) in
    Return (Some df)
  else Return None.

(** ** The other functions of [download.py] *)

Definition idx_columns : list string :=
  [ "company_name"; "form_type"; "cik"; "date_filed"; "file_name"; "idx_name" ].

(** The tokens of one line of an index, and the row the line yields. *)
Definition idx_tokens (line : string) : list string :=
  Py.filter_None (map Py.strip (Py.split "   " line)).

Definition idx_row (idx_url line : string) : list string :=
  (idx_tokens line ++ [idx_url])%list.

Definition _idx_to_dataframe (idx idx_url : string) : outcome Pandas.DataFrame :=
  Pandas.DataFrame_of_rows
    (map (idx_row idx_url) (skipn 11 (Py.splitlines idx)))
    idx_columns.

Definition _append_dataframes (dfs : list Pandas.DataFrame)
  : outcome Pandas.DataFrame :=
  match dfs with
  | [] => Raise IndexError
  | df :: others => Return (Pandas.append df others)
  end.

Definition bool_words : list (string * string) :=
  [ ("0", "false"); ("1", "true") ].

Definition _clean_download (df : Pandas.DataFrame) : outcome Pandas.DataFrame :=
  try df := Pandas.replace "Director" bool_words df in
  Pandas.replace "Officer" bool_words df.

(** The URL of the daily index of [d], the expression of the first list
    comprehension of [download]. *)
Definition index_url (d : date) : string :=
  "https://www.sec.gov/Archives/edgar/daily-index/" ++
  Py.str_of_int (year d) ++ "/QTR" ++
  Py.str_of_int ((month d - 1) / 3 + 1) ++
  "/company." ++
  (Py.str_of_int (year d) ++ Py.zfill 2 (Py.str_of_int (month d)) ++
   Py.zfill 2 (Py.str_of_int (day d))) ++
  ".idx".

(** The URL of a filing, the expression of the second one. *)
Definition form_url (x : Pandas.cell) : outcome string :=
  match x with
  | Some file_name => Return ("https://www.sec.gov/Archives/" ++ file_name)
  | None => Raise (TypeError "can only concatenate str to str")
  end.

Section Source.

(** [_calendar().holidays(start=s, end=e)]: the holidays of the configured
    calendar between two timestamps, each of them [None] when it is [NaT];
    the library is free to raise. *)
Variable holidays_between : option date -> option date -> outcome (list date).

(** The network: the answer to a request for a URL, given the requests
    made before it. *)
Variable net : list string -> string -> response.

(** [_datetime.today() - _timedelta(days=1)] *)
Variable yesterday : date.

(** In the source the parameter [holidays] is rebound to the list of the
    holidays before it is read; the binder of the [try] below shadows it
    in the same way. *)
Definition _date_list_generator (start end_ : date) (weekends holidays : bool)
  : outcome (list date) :=
  let daterange :=
    if weekends then Pandas.date_range start end_
    else Pandas.bdate_range start end_ in
  let dfdate := daterange in
  try dfdate :=
    (if negb weekends then
       try holidays :=
         holidays_between (Pandas.index_min daterange) (Pandas.index_max daterange) in
       Return (List.filter (fun d => negb (Pandas.isin d holidays)) dfdate)
     else Return dfdate) in
  Return (Pandas.unique dfdate).

(** One iteration of [while True] for each unit of fuel; the sleep of 630
    seconds does not change the result. *)
Fixpoint _download_one_threaded (fuel : nat) (url : string) : M (option string) :=
  fun log =>
    match fuel with
    | O => (OutOfFuel, log)
    | S fuel' =>
        match net log url with
        | TransportError => (Return None, url :: log)
        | Body formtext =>
            if Py.contains "Request Rate Threshold Exceeded" formtext
            then _download_one_threaded fuel' url (url :: log)
            else if Py.contains "AccessDenied" formtext
                 then (Return None, url :: log)
                 else (Return (Some formtext), url :: log)
        end
    end.

(** [[x for x in zip(results, urls) if x[0] is not None]] *)
Definition keep_results (results : list (option string)) (urls : list string)
  : list (string * string) :=
  omap (fun x : option string * string =>
          match fst x with
          | Some text => Some (text, snd x)
          | None => None
          end)
       (zip results urls).

Definition _download_thread (fuel : nat) (urls : list string)
  : M (list (string * string)) :=
  run results := for_each_M (_download_one_threaded fuel) urls in
  ret (keep_results results urls).

(** [str(form)] when [form] is a string. *)
Definition str_value (form : pyval) : string :=
  match form with
  | PyStr s => s
  | _ => EmptyString
  end.

(** The part of [download] up to the combined table of the index rows. *)
Definition download_index (fuel : nat) (start end_ : option date)
  : M Pandas.DataFrame :=
  let start := default yesterday start in
  let end_ := default yesterday end_ in
  run dates := lift (_date_list_generator start end_ false false) in
  let urls := map index_url dates in
  run results := _download_thread fuel urls in
  run dfs := lift (for_each (fun x => _idx_to_dataframe (fst x) (snd x)) results) in
  lift (_append_dataframes dfs).

(** The part of [download] from the list of filing URLs on. *)
Definition download_forms (fuel : nat) (df : Pandas.DataFrame)
  : M Pandas.DataFrame :=
  run names := lift (Pandas.column "file_name" df) in
  run urls := lift (for_each form_url names) in
  run results := _download_thread fuel urls in
  run dfs := lift (for_each (fun x => _form_qc (fst x) (snd x)) results) in
  let dfs := omap id dfs in
  run df := lift (_append_dataframes dfs) in
  lift (_clean_download df).

Definition download (fuel : nat) (start end_ : option date) (form : pyval)
  : M Pandas.DataFrame :=
  run df := download_index fuel start end_ in
  run df :=
    (if truthy form then
       if negb (isinstance_str form)
       then raise (TypeError "form type must be a string")
       else lift (Pandas.loc_eq "form_type" (str_value form) df)
     else ret df) in
  download_forms fuel df.

End Source.

(** ** Texts given line by line *)

Module Text.

Definition LF : string := String (ascii_of_nat 10) EmptyString.

(** No character of [s] is a line boundary. *)
Fixpoint one_line (s : string) : bool :=
  match s with
  | EmptyString => true
  | String c s' => negb (Py.is_linebreak c) && one_line s'
  end.

(** The text made of the given lines, each ended by a line feed. *)
Fixpoint unlines (ls : list string) : string :=
  match ls with
  | [] => EmptyString
  | l :: ls' => l ++ LF ++ unlines ls'
  end.

End Text.

(** ** Concrete documents, calendars and networks for the examples *)

Module Examples.

Import Text.

Definition form_head : list string :=
  [ "<ownershipDocument>";
    "<periodOfReport>2020-01-02</periodOfReport>";
    "<issuerCik>0000320193</issuerCik>";
    "<issuerName>Apple Inc.</issuerName>";
    "<issuerTradingSymbol>AAPL</issuerTradingSymbol>";
    "<reportingOwner>";
    "<rptOwnerCik>0001214156</rptOwnerCik>";
    "<rptOwnerName>DOE JOHN</rptOwnerName>";
    "<isDirector>1</isDirector>";
    "<isOfficer>0</isOfficer>";
    "<isTenPercentOwner>0</isTenPercentOwner>";
    "<officerTitle>Chairman</officerTitle>";
    "</reportingOwner>";
    "<nonDerivativeTransaction>" ].

Definition form_tail : list string :=
  [ "<transactionShares>";
    "<value>100</value>";
    "</transactionShares>";
    "<transactionPricePerShare>";
    "<value>300.5</value>";
    "</transactionPricePerShare>";
    "<sharesOwnedFollowingTransaction>";
    "<value>900</value>";
    "</sharesOwnedFollowingTransaction>";
    "<directOrIndirectOwnership>";
    "<value>D</value>";
    "</directOrIndirectOwnership>";
    "</nonDerivativeTransaction>";
    "</ownershipDocument>" ].

(** A filing with one transaction. *)
Definition form_one : string :=
  unlines (form_head ++
           [ "<transactionDate>"; "<value>2020-01-02</value>";
             "</transactionDate>";
             "<transactionCode>S</transactionCode>" ] ++
           form_tail).

(** A filing with two transaction codes, the first of them on the line
    after the tag of the transaction date. *)
Definition form_code_after_date : string :=
  unlines (form_head ++
           [ "<transactionDate>";
             "<transactionCode>S</transactionCode>";
             "</transactionDate>";
             "<transactionCode>P</transactionCode>" ] ++
           form_tail).

(** A filing with two transaction codes on lines of their own. *)
Definition form_two_codes : string :=
  unlines (form_head ++
           [ "<transactionDate>"; "<value>2020-01-02</value>";
             "</transactionDate>";
             "<transactionCode>S</transactionCode>";
             "<transactionCode>P</transactionCode>" ] ++
           form_tail).

(** A filing that passes every test of the qualification but for a
    second block of non-derivative transactions. *)
Definition form_two_blocks : string :=
  unlines (form_head ++
           [ "<transactionDate>"; "<value>2020-01-02</value>";
             "</transactionDate>";
             "<transactionCode>S</transactionCode>" ] ++
           form_tail ++
           [ "<nonDerivativeTransaction>"; "</nonDerivativeTransaction>" ]).

Definition idx_header : list string :=
  [ "Description:           Daily Index of EDGAR Dissemination Feed by Company Name";
    "Last Data Received:    Jan 2, 2020";
    "Comments:              webmaster@sec.gov";
    "Anonymous FTP:         ftp://ftp.sec.gov/edgar/";
    " "; " "; " "; " ";
    "Company Name      Form Type   CIK         Date Filed  File Name";
    "---------------------------------------------------------------";
    " " ].

Definition idx_rows : list string :=
  [ "APPLE INC      4           320193      20200102    edgar/data/320193/0000320193-20-000001.txt";
    "ZYX CORP       10-K        1234        20200102    edgar/data/1234/0001234-20-000007.txt" ].

Definition idx_one : string := unlines (idx_header ++ idx_rows).

(** A table with the columns [URL], [Director], [Officer] and
    [Transaction Code]. *)
Definition flags_table : Pandas.DataFrame :=
  Pandas.mkframe ["URL"; "Director"; "Officer"; "Transaction Code"]
    [ [Some "0"; Some "1"; Some "0"; Some "1"];
      [Some "1"; Some "true"; Some "false"; Some "0"];
      [Some "u"; Some "10"; Some "True"; Some "S"] ].

(** The federal holidays of 2020. *)
Definition federal_2020 : list date :=
  [ mkdate 2020 1 1; mkdate 2020 1 20; mkdate 2020 2 17; mkdate 2020 5 25;
    mkdate 2020 7 3; mkdate 2020 9 7; mkdate 2020 10 12; mkdate 2020 11 11;
    mkdate 2020 11 26; mkdate 2020 12 25 ].

(** A calendar that knows the holidays of 2020; it has none to report
    when a bound is [NaT]. *)
Definition holidays_2020 (s e : option date) : outcome (list date) :=
  match s, e with
  | Some a, Some b =>
      Return (List.filter
                (fun h => (Calendar.toordinal a <=? Calendar.toordinal h)%Z &&
                          (Calendar.toordinal h <=? Calendar.toordinal b)%Z)
                federal_2020)
  | _, _ => Return []
  end.

(** A network that answers every request with the same body. *)
Definition net_const (body : string) : list string -> string -> response :=
  fun _ _ => Body body.

(** A network whose first answer carries the rate-limit notice of the
    host together with the words of a refusal, and whose later answers
    are plain. *)
Definition net_throttled : list string -> string -> response :=
  fun log _ =>
    match log with
    | [] => Body "Request Rate Threshold Exceeded: AccessDenied until the rate drops"
    | _ => Body "plain text"
    end.

(** A network that serves [idx_one] as every index and [form_one] as
    every filing. *)
Definition net_sec : list string -> string -> response :=
  fun _ url =>
    if Py.contains "daily-index" url then Body idx_one else Body form_one.

End Examples.

(** ** The formats and tables of the specification, in its own words *)

Module Spec.

(** The [w] low decimal digits of [n], the most significant first. *)
Fixpoint digits (w : nat) (n : Z) : string :=
  match w with
  | O => EmptyString
  | S w' =>
      digits w' (n / 10) ++
      String (ascii_of_nat (48 + Z.to_nat (n mod 10))) EmptyString
  end.

(** [.../daily-index/{year}/QTR{quarter}/company.{YYYYMMDD}.idx] *)
Definition index_url (y q m d : Z) : string :=
  "https://www.sec.gov/Archives/edgar/daily-index/" ++ digits 4 y ++
  "/QTR" ++ digits 1 q ++ "/company." ++
  digits 4 y ++ digits 2 m ++ digits 2 d ++ ".idx".

(** ["0"] becomes ["false"], ["1"] becomes ["true"], anything else stays. *)
Definition bool_word (c : Pandas.cell) : Pandas.cell :=
  match c with
  | Some "0" => Some "false"
  | Some "1" => Some "true"
  | other => other
  end.

End Spec.

Module Networks.

(** A network on which [a] is served, [b] cannot be reached, [c] is
    refused, and everything else is served as an empty page. *)
Definition net_mixed : list string -> string -> response :=
  fun _ url =>
    if String.eqb url "a" then Body "page a"
    else if String.eqb url "b" then TransportError
    else if String.eqb url "c"
         then Body "<Error><Code>AccessDenied</Code></Error>"
         else Body "".

End Networks.

(** ** The states of the extraction scan *)

Module Scan.

(** The keys whose value is on the line after the tag. *)
Definition next_keys : list string :=
  [ "Transaction Date"; "Number of Shares"; "Price per Share";
    "Shares Owned Following Trans"; "Ownership Nature" ].

(** The tags that the chain tests before it comes to the test of [key]. *)
Fixpoint tags_before (key : string) (tests : list (string * string * shape))
  : list string :=
  match tests with
  | [] => []
  | (tag, k, _) :: rest =>
      if String.eqb k key then [] else tag :: tags_before key rest
  end.

(** The tests of the chain from the test of [key] on. *)
Fixpoint tests_from (key : string) (tests : list (string * string * shape))
  : list (string * string * shape) :=
  match tests with
  | [] => []
  | (tag, k, sh) :: rest =>
      if String.eqb k key then tests else tests_from key rest
  end.

(** Whether the scan of the lines [pre] of a document ends waiting for
    the value of a tag. *)
Definition pending_after (url : string) (pre : list string) : bool :=
  match (try st0 := scan_start url in scan pre st0) with
  | Return st => nextline st
  | _ => false
  end.

(** What holds before and after every line: every key is present with at
    most one value, ["URL"] has its one value, and a value is awaited
    only for a key that has none. *)
Record invariant (st : scan_state) : Prop := mkinvariant {
  inv_keys :
    forall k, In k datadict_keys ->
      exists l, datadict st !! k = Some l /\ length l <= 1;
  inv_url : exists u, datadict st !! "URL" = Some [u];
  inv_next :
    nextline st = true ->
    exists k, label st = Some k /\ In k next_keys /\ datadict st !! k = Some []
}.

(** What the tests [tests] of the chain can do with one line. *)
Inductive chain_step (tests : list (string * string * shape)) (line : string)
  (st : scan_state) : scan_state -> Prop :=
  | chain_pass : chain_step tests line st st
  | chain_same (tag key : string) :
      In (tag, key, SameLine) tests ->
      Py.contains tag line = true ->
      datadict st !! key = Some [] ->
      chain_step tests line st
        (mkstate (<[key := [line_value line]]> (datadict st))
                 (nextline st) (label st))
  | chain_next (tag key : string) :
      In (tag, key, NextLine) tests ->
      Py.contains tag line = true ->
      datadict st !! key = Some [] ->
      chain_step tests line st (mkstate (datadict st) true (Some key)).

(** What one iteration of the loop can do. *)
Inductive line_step (line : string) (st : scan_state) : scan_state -> Prop :=
  | line_value_of (key : string) :
      nextline st = true ->
      label st = Some key ->
      In key next_keys ->
      datadict st !! key = Some [] ->
      line_step line st
        (mkstate (<[key := [line_value line]]> (datadict st))
                 false (Some "ERROR"))
  | line_chain (st' : scan_state) :
      nextline st = false ->
      chain_step chain line st st' ->
      line_step line st st'.

(** Between [st] and [st'] a key either keeps its values or, being
    behind the count of ["URL"], gets the value of [line] appended. *)
Definition appended_behind (line : string) (st st' : scan_state) : Prop :=
  forall key,
    datadict st' !! key = datadict st !! key \/
    exists old u,
      datadict st !! key = Some old /\
      datadict st !! "URL" = Some u /\
      length old < length u /\
      datadict st' !! key = Some (old ++ [line_value line])%list.

(** Every column is at most as long as the column ["URL"], which has one
    value. *)
Definition bounded (st : scan_state) : Prop :=
  exists u,
    datadict st !! "URL" = Some u /\ length u = 1 /\
    forall key, In key datadict_keys ->
      exists l, datadict st !! key = Some l /\ length l <= length u.

End Scan.

(** ** Answers of the network to one URL *)

Module Retry.

(** What the last answer of a fetch gives: nothing for a failure of the
    transport and for a refusal, the body otherwise. *)
Definition result_of (r : response) : option string :=
  match r with
  | TransportError => None
  | Body text => if Py.contains "AccessDenied" text then None else Some text
  end.

(** The answer carries the rate-limit notice. *)
Definition rate_limited (r : response) : bool :=
  match r with
  | TransportError => false
  | Body text => Py.contains "Request Rate Threshold Exceeded" text
  end.

(** The next [k] answers to [url], from the log [log] on, carry the
    rate-limit notice. *)
Fixpoint throttled (net : list string -> string -> response) (url : string)
  (log : list string) (k : nat) : Prop :=
  match k with
  | O => True
  | S k' => rate_limited (net log url) = true /\ throttled net url (url :: log) k'
  end.

End Retry.

(** ** More documents for the examples *)

Module Documents.

(** The filing [Examples.form_one] with its lines joined, as a file
    without line breaks has them. *)
Definition form_flat : string :=
  String.concat ""
    (Examples.form_head ++
     [ "<transactionDate>"; "<value>2020-01-02</value>";
       "</transactionDate>";
       "<transactionCode>S</transactionCode>" ] ++
     Examples.form_tail).

(** An index whose second row has its company name cut in two by three
    spaces, which makes six tokens of it. *)
Definition idx_long_row : string :=
  Text.unlines
    (Examples.idx_header ++
     [ "APPLE INC      4           320193      20200102    edgar/data/320193/0000320193-20-000001.txt";
       "ZYX   CORP     10-K        1234        20200102    edgar/data/1234/0001234-20-000007.txt" ]).

(** An index whose second row has a name so long that two spaces only
    part it from the form type, which leaves four tokens, and whose last
    line is blank. *)
Definition idx_short_row : string :=
  Text.unlines
    (Examples.idx_header ++
     [ "APPLE INC      4           320193      20200102    edgar/data/320193/0000320193-20-000001.txt";
       "A VERY LONG COMPANY NAME THAT FILLS ITS COLUMN  10-K        1234        20200102    edgar/data/1234/0001234-20-000007.txt";
       " " ]).

(** A filing with two transaction codes, the second of them on the line
    after the tag of the number of shares. *)
Definition form_code_after_shares : string :=
  Text.unlines
    (Examples.form_head ++
     [ "<transactionDate>"; "<value>2020-01-02</value>";
       "</transactionDate>";
       "<transactionCode>S</transactionCode>";
       "<transactionShares>";
       "<transactionCode>P</transactionCode>" ] ++
     tl Examples.form_tail).

(** A calendar that knows the holidays of 2020 and raises a [TypeError]
    when a bound is [NaT]. *)
Definition holidays_strict (s e : option date) : outcome (list date) :=
  match s, e with
  | Some _, Some _ => Examples.holidays_2020 s e
  | _, _ => Raise (TypeError "integer argument expected, got float")
  end.

End Documents.

(** ** Tables of records *)

(** The cell at position [i] of a cleaned row: the words are put in at
    the positions [jd] and [jo]. *)
Definition cleaned (jd jo : nat) (i : nat) (c : Pandas.cell) : Pandas.cell :=
  (if Nat.eqb i jo then Pandas.replace_value bool_words else id)
    ((if Nat.eqb i jd then Pandas.replace_value bool_words else id) c).

(** A row of 17 cells, none of them missing. *)
Definition full_row (r : list Pandas.cell) : Prop :=
  length r = length datadict_keys /\ Forall (fun c : Pandas.cell => c <> None) r.

(** The table of one filing: the 17 columns and one full row. *)
Definition record (d : Pandas.DataFrame) : Prop :=
  Pandas.columns d = datadict_keys /\
  exists row, Pandas.rows d = [row] /\ full_row row.

(** * Properties *)

(** ** The qualification of a filing *)

(** C4. A document in which [<nonDerivativeTransaction>] occurs zero times
    or more than once is not qualified: [_form_qc] returns [None] for it,
    whatever the other tests of the qualification say. *)
Theorem form_qc_nonderivative_count (formtext url : string) :
  Py.count "<nonDerivativeTransaction>" formtext = 0 \/
  1 < Py.count "<nonDerivativeTransaction>" formtext ->
  _form_qc formtext url = Return None.
Proof.
  intros Hcount. unfold _form_qc, qualifies.
  destruct (Nat.eqb_spec (Py.count "<nonDerivativeTransaction>" formtext) 1)
    as [Heq | Hne]; [lia |].
  now rewrite andb_false_r.
Qed.

(** The document [form_two_blocks] passes the four other tests and has two
    blocks: it is rejected. *)
Lemma form_qc_nonderivative_count_witness :
  1 < Py.count "<nonDerivativeTransaction>" Examples.form_two_blocks /\
  _form_qc Examples.form_two_blocks "u" = Return None.
Proof.
  assert (H : 1 < Py.count "<nonDerivativeTransaction>" Examples.form_two_blocks)
    by (vm_compute; lia).
  split; [exact H |].
  apply (form_qc_nonderivative_count Examples.form_two_blocks "u"). now right.
Defined.

(** ** The list of dates *)

Lemma isin_In (d : date) (values : list date) :
  Pandas.isin d values = true <-> In d values.
Proof.
  unfold Pandas.isin. rewrite existsb_exists. split.
  - intros (h & Hin & Heq). apply bool_decide_eq_true in Heq. now subst.
  - intros Hin. exists d. split; [exact Hin | now apply bool_decide_eq_true].
Qed.

Lemma isin_not_In (d : date) (values : list date) :
  Pandas.isin d values = false <-> ~ In d values.
Proof.
  rewrite <- isin_In. destruct (Pandas.isin d values); split; congruence.
Qed.

Lemma unique_from_In (ds seen : list date) (d : date) :
  In d (Pandas.unique_from seen ds) <-> In d ds /\ ~ In d seen.
Proof.
  revert seen. induction ds as [| x ds IH]; intros seen; simpl.
  - tauto.
  - destruct (Pandas.isin x seen) eqn:Hx.
    + apply isin_In in Hx. rewrite IH. split.
      * tauto.
      * intros [[-> | Hin] Hns]; tauto.
    + apply isin_not_In in Hx. simpl. rewrite IH. simpl. split.
      * intros [-> | [Hin Hns]]; [tauto |]. split; [tauto |]. tauto.
      * intros [[-> | Hin] Hns]; [tauto |].
        destruct (decide (x = d)) as [-> | Hne]; [tauto |]. right. tauto.
Qed.

Lemma unique_In (ds : list date) (d : date) :
  In d (Pandas.unique ds) <-> In d ds.
Proof. unfold Pandas.unique. rewrite unique_from_In. simpl. tauto. Qed.

Section DateList.

Variable holidays_between : option date -> option date -> outcome (list date).

(** C10. The parameter [holidays] of [_date_list_generator] has no effect:
    the two values of the flag give the same result.  When the weekends
    are left out, no date that the calendar reports as a holiday is
    returned; when they are kept, every date of the range is returned,
    the holidays among them. *)
Theorem date_list_holidays_flag_unused (start end_ : date) (weekends : bool) :
  _date_list_generator holidays_between start end_ weekends true =
  _date_list_generator holidays_between start end_ weekends false /\
  (forall (flag : bool) (hs l : list date),
      holidays_between
        (Pandas.index_min (Pandas.bdate_range start end_))
        (Pandas.index_max (Pandas.bdate_range start end_)) = Return hs ->
      _date_list_generator holidays_between start end_ false flag = Return l ->
      forall d, In d l -> ~ In d hs) /\
  (forall (flag : bool),
      exists l,
        _date_list_generator holidays_between start end_ true flag = Return l /\
        forall d, In d (Pandas.date_range start end_) -> In d l).
Proof.
  split; [reflexivity |]. split.
  - intros flag hs l Hhs Hl d Hd Hin.
    unfold _date_list_generator in Hl. simpl in Hl. rewrite Hhs in Hl. simpl in Hl.
    injection Hl as <-. apply (proj1 (unique_In _ _)) in Hd.
    apply (proj1 (filter_In _ _ _)) in Hd. destruct Hd as [_ Hd].
    apply negb_true_iff in Hd. apply (proj1 (isin_not_In _ _)) in Hd.
    contradiction.
  - intros flag. eexists. split; [reflexivity |].
    intros d Hd. now apply (proj2 (unique_In _ _)).
Qed.

End DateList.

(** Around Christmas 2020, with the federal calendar: the holiday is
    dropped when the weekends are, and kept when they are. *)
Lemma date_list_holidays_flag_unused_witness :
  ~ In (mkdate 2020 12 25) [mkdate 2020 12 24; mkdate 2020 12 28] /\
  In (mkdate 2020 12 25)
     [mkdate 2020 12 24; mkdate 2020 12 25; mkdate 2020 12 26;
      mkdate 2020 12 27; mkdate 2020 12 28].
Proof.
  pose proof (date_list_holidays_flag_unused Examples.holidays_2020
                (mkdate 2020 12 24) (mkdate 2020 12 28) false) as (_ & Hout & _).
  pose proof (date_list_holidays_flag_unused Examples.holidays_2020
                (mkdate 2020 12 24) (mkdate 2020 12 28) true) as (_ & _ & Hin).
  split.
  - intros Hd.
    apply (Hout true [mkdate 2020 12 25]
                [mkdate 2020 12 24; mkdate 2020 12 28]
                eq_refl eq_refl (mkdate 2020 12 25) Hd).
    now left.
  - destruct (Hin false) as (l & Hl & Hall).
    vm_compute in Hl. injection Hl as <-.
    apply Hall. vm_compute. right. now left.
Defined.

(** ** The URL of a daily index *)

(** Linear arithmetic with quotients and remainders by constants. *)
Ltac div_lia := Z.div_mod_to_equations; lia.

(** A boolean test that holds on a whole interval holds at each of its
    points. *)
Lemma forallb_interval (P : Z -> bool) (lo hi : Z) :
  forallb P (map (fun i => (lo + Z.of_nat i)%Z)
                 (seq 0 (Z.to_nat (hi - lo + 1)))) = true ->
  forall z, (lo <= z <= hi)%Z -> P z = true.
Proof.
  intros Hall z Hz. rewrite forallb_forall in Hall. apply Hall.
  apply in_map_iff. exists (Z.to_nat (z - lo)). split; [lia |].
  apply in_seq. lia.
Qed.

Lemma str_of_int_year (y : Z) :
  (1000 <= y <= 9999)%Z -> Py.str_of_int y = Spec.digits 4 y.
Proof.
  intros Hy.
  apply String.eqb_eq.
  apply (forallb_interval
           (fun z => String.eqb (Py.str_of_int z) (Spec.digits 4 z)) 1000 9999);
    [now vm_compute | lia].
Qed.

Lemma zfill_two_digits (n : Z) :
  (1 <= n <= 31)%Z -> Py.zfill 2 (Py.str_of_int n) = Spec.digits 2 n.
Proof.
  intros Hn.
  apply String.eqb_eq.
  apply (forallb_interval
           (fun z => String.eqb (Py.zfill 2 (Py.str_of_int z)) (Spec.digits 2 z)) 1 31);
    [now vm_compute | lia].
Qed.

Lemma str_of_int_quarter (q : Z) :
  (1 <= q <= 4)%Z -> Py.str_of_int q = Spec.digits 1 q.
Proof.
  intros Hq.
  apply String.eqb_eq.
  apply (forallb_interval
           (fun z => String.eqb (Py.str_of_int z) (Spec.digits 1 z)) 1 4);
    [now vm_compute | lia].
Qed.

(** C7. The URL of the index of a date depends on the date alone and has
    the format [.../daily-index/{year}/QTR{quarter}/company.{YYYYMMDD}.idx]
    with [quarter = ((month-1)//3)+1]; the quarter is the one of the three
    months that hold the month, so month 3 is in quarter 1 and month 4 in
    quarter 2. *)
Theorem index_url_format (d : date) :
  (1000 <= year d <= 9999)%Z ->
  (1 <= month d <= 12)%Z ->
  (1 <= day d <= 31)%Z ->
  let q := ((month d - 1) / 3 + 1)%Z in
  index_url d = Spec.index_url (year d) q (month d) (day d) /\
  (1 <= q <= 4)%Z /\
  (3 * (q - 1) < month d <= 3 * q)%Z /\
  (month d = 3 -> q = 1)%Z /\
  (month d = 4 -> q = 2)%Z /\
  (forall d' : date,
      year d' = year d -> month d' = month d -> day d' = day d ->
      index_url d' = index_url d).
Proof.
  intros Hy Hm Hd q.
  assert (Hq : (1 <= q <= 4)%Z) by (subst q; div_lia).
  repeat split; try (subst q; div_lia).
  - unfold index_url, Spec.index_url. fold q.
    rewrite (str_of_int_year _ Hy), (str_of_int_quarter _ Hq).
    rewrite (zfill_two_digits (month d)) by lia.
    rewrite (zfill_two_digits (day d)) by lia.
    reflexivity.
  - intros d' Ey Em Ed. unfold index_url. now rewrite Ey, Em, Ed.
Qed.

(** The last day of the first quarter and the first day of the second one
    in 2020. *)
Lemma index_url_format_witness :
  index_url (mkdate 2020 3 31) =
    "https://www.sec.gov/Archives/edgar/daily-index/2020/QTR1/company.20200331.idx" /\
  index_url (mkdate 2020 4 1) =
    "https://www.sec.gov/Archives/edgar/daily-index/2020/QTR2/company.20200401.idx".
Proof.
  split.
  - destruct (index_url_format (mkdate 2020 3 31)) as (Hurl & _);
      [simpl; lia | simpl; lia | simpl; lia |].
    rewrite Hurl. reflexivity.
  - destruct (index_url_format (mkdate 2020 4 1)) as (Hurl & _);
      [simpl; lia | simpl; lia | simpl; lia |].
    rewrite Hurl. reflexivity.
Defined.

(** ** The cleaning of the table *)

Lemma replace_value_bool_word (c : Pandas.cell) :
  Pandas.replace_value bool_words c = Spec.bool_word c.
Proof.
  destruct c as [v |]; [| reflexivity].
  unfold Pandas.replace_value, bool_words. simpl.
  destruct (String.eqb_spec "0" v) as [<- | H0]; [reflexivity |].
  destruct (String.eqb_spec "1" v) as [<- | H1]; [reflexivity |].
  destruct v as [| a [| b v]]; try reflexivity.
  - destruct a as [[] [] [] [] [] [] [] []]; try reflexivity; congruence.
  - destruct a as [[] [] [] [] [] [] [] []]; reflexivity.
Qed.

Lemma imap_same {A : Type} (f : nat -> A -> A) (r : list A) :
  (forall i c, f i c = c) -> imap f r = r.
Proof.
  revert f. induction r as [| x r IH]; intros f Hf; [reflexivity |].
  simpl. rewrite Hf. f_equal. apply IH. intros i c. exact (Hf (S i) c).
Qed.

Lemma imap_compose {A : Type} (f g : nat -> A -> A) (r : list A) :
  imap f (imap g r) = imap (fun i c => f i (g i c)) r.
Proof.
  revert f g. induction r as [| x r IH]; intros f g; [reflexivity |].
  simpl. f_equal. exact (IH (f ∘ S) (g ∘ S)).
Qed.

Lemma alter_imap {A : Type} (f : A -> A) (j : nat) (r : list A) :
  alter f j r = imap (fun i c => if Nat.eqb i j then f c else c) r.
Proof.
  revert j. induction r as [| x r IH]; intros j; [reflexivity |].
  destruct j as [| j]; simpl.
  - f_equal. symmetry. apply imap_same. reflexivity.
  - f_equal. exact (IH j).
Qed.

Lemma index_of_alter_columns (col : string) (mapping : list (string * string))
  (df : Pandas.DataFrame) (j : nat) :
  Pandas.index_of col (Pandas.columns df) = Some j ->
  Pandas.replace col mapping df =
  Return (Pandas.mkframe (Pandas.columns df)
            (map (alter (Pandas.replace_value mapping) j) (Pandas.rows df))).
Proof. intros Hj. unfold Pandas.replace. now rewrite Hj. Qed.

(** C9. The cleaning step maps ["0"] to ["false"] and ["1"] to ["true"] in
    the columns [Director] and [Officer], leaves every other value of
    these columns as it is, and changes no other column. *)
Theorem clean_download_cells (df : Pandas.DataFrame) (jd jo : nat) :
  Pandas.index_of "Director" (Pandas.columns df) = Some jd ->
  Pandas.index_of "Officer" (Pandas.columns df) = Some jo ->
  _clean_download df =
  Return (Pandas.mkframe (Pandas.columns df)
            (map (imap (fun j c =>
                          if Nat.eqb j jd || Nat.eqb j jo
                          then Spec.bool_word c else c))
                 (Pandas.rows df))).
Proof.
  intros Hd Ho. unfold _clean_download.
  rewrite (index_of_alter_columns _ _ _ _ Hd). simpl.
  rewrite (index_of_alter_columns "Officer" bool_words
             (Pandas.mkframe (Pandas.columns df) _) jo Ho). simpl.
  do 2 f_equal. rewrite map_map. apply map_ext. intros r.
  assert (Hne : jd <> jo).
  { intros ->. clear -Hd Ho.
    revert jo Hd Ho. induction (Pandas.columns df) as [| c cs IH]; intros jo Hd Ho;
      [discriminate |].
    simpl in Hd, Ho.
    destruct (String.eqb_spec c "Director") as [-> | _].
    - simpl in Ho. injection Hd as <-.
      destruct (Pandas.index_of "Officer" cs); discriminate.
    - destruct (String.eqb c "Officer").
      + injection Ho as <-. destruct (Pandas.index_of "Director" cs); discriminate.
      + destruct (Pandas.index_of "Director" cs) as [j1 |]; [| discriminate].
        destruct (Pandas.index_of "Officer" cs) as [j2 |]; [| discriminate].
        simpl in Hd, Ho. injection Hd as <-. injection Ho as Ho.
        apply (IH j1); [reflexivity | now rewrite Ho]. }
  rewrite !alter_imap, imap_compose. apply imap_ext. intros j c _. simpl.
  destruct (Nat.eqb_spec j jd) as [-> | Hjd]; simpl.
  - destruct (Nat.eqb_spec jd jo); [contradiction |].
    apply replace_value_bool_word.
  - destruct (Nat.eqb_spec j jo); [apply replace_value_bool_word | reflexivity].
Qed.

(** On [Examples.flags_table] the digits of the two columns become words;
    ["10"], ["True"] and the digits of the other columns stay. *)
Lemma clean_download_cells_witness :
  Pandas.index_of "Director" (Pandas.columns Examples.flags_table) = Some 1 /\
  Pandas.index_of "Officer" (Pandas.columns Examples.flags_table) = Some 2 /\
  _clean_download Examples.flags_table =
  Return
    (Pandas.mkframe ["URL"; "Director"; "Officer"; "Transaction Code"]
       [ [Some "0"; Some "true"; Some "false"; Some "1"];
         [Some "1"; Some "true"; Some "false"; Some "0"];
         [Some "u"; Some "10"; Some "True"; Some "S"] ]).
Proof.
  split; [reflexivity |]. split; [reflexivity |].
  rewrite (clean_download_cells Examples.flags_table 1 2 eq_refl eq_refl).
  reflexivity.
Defined.

(** ** The fetcher *)

Section Fetch.

Variable net : list string -> string -> response.

Abbreviation fetch := (_download_one_threaded net).
Abbreviation rate_limited := (Py.contains "Request Rate Threshold Exceeded").
Abbreviation access_denied := (Py.contains "AccessDenied").

(** A fetch requests its own URL only, never raises, and has made at
    least one request when it returns. *)
Lemma fetch_log (fuel : nat) (url : string) (log : list string)
  (r : outcome (option string)) (log' : list string) :
  fetch fuel url log = (r, log') ->
  exists reqs,
    log' = (reqs ++ log)%list /\
    Forall (eq url) reqs /\
    (forall e, r <> Raise e) /\
    (forall v, r = Return v -> reqs <> []).
Proof.
  revert log. induction fuel as [| fuel IH]; intros log H; simpl in H.
  - injection H as <- <-. exists []. repeat split; [constructor | easy | easy].
  - destruct (net log url) as [| body] eqn:Hnet.
    + injection H as <- <-. exists [url].
      repeat split; [now constructor | easy | easy].
    + destruct (rate_limited body).
      * destruct (IH _ H) as (reqs & -> & Hall & Hraise & Hret).
        exists (reqs ++ [url])%list. repeat split.
        -- now rewrite <- app_assoc.
        -- apply Forall_app. split; [exact Hall | now constructor].
        -- exact Hraise.
        -- intros v Hv Hnil. now apply app_eq_nil in Hnil as [_ ?].
      * destruct (access_denied body); injection H as <- <-; exists [url];
          (repeat split; [now constructor | easy | easy]).
Qed.


(** The results of a batch, one for each URL and in their order. *)
Lemma for_each_fetch (fuel : nat) (urls : list string) (log : list string)
  (r : outcome (list (option string))) (log' : list string) :
  for_each_M (fetch fuel) urls log = (r, log') ->
  exists reqs,
    log' = (reqs ++ log)%list /\
    Forall (fun u => In u urls) reqs /\
    (forall results, r = Return results ->
       length results = length urls /\
       (forall u, In u urls -> In u reqs) /\
       (forall i u x, urls !! i = Some u -> results !! i = Some x ->
          exists l l', fetch fuel u l = (Return x, l'))).
Proof.
  revert log r log'. induction urls as [| url urls IH]; intros log r log' H.
  - injection H as <- <-. exists []. split; [reflexivity |]. split; [constructor |].
    intros results [= <-]. repeat split; [easy |].
    intros i u x Hu. now rewrite lookup_nil in Hu.
  - simpl in H. unfold bind in H.
    destruct (fetch fuel url log) as [r1 l1] eqn:H1.
    destruct (fetch_log _ _ _ _ _ H1) as (q1 & -> & Hq1 & _ & Hne).
    assert (Hq1' : Forall (fun u => In u (url :: urls)) q1).
    { eapply List.Forall_impl; [| exact Hq1]. intros u <-. now left. }
    destruct r1 as [x1 | e1 |].
    + destruct (for_each_M (fetch fuel) urls (q1 ++ log)%list) as [r2 l2] eqn:H2.
      destruct (IH _ _ _ H2) as (q2 & -> & Hq2 & Hres).
      assert (Hq : Forall (fun u => In u (url :: urls)) (q2 ++ q1)%list).
      { apply Forall_app. split; [| exact Hq1'].
        eapply List.Forall_impl; [| exact Hq2]. intros u Hu. now right. }
      exists (q2 ++ q1)%list. rewrite <- app_assoc.
      destruct r2 as [xs | e2 |]; unfold ret in H; injection H as <- <-;
        (split; [reflexivity |]); (split; [exact Hq |]); try easy.
      intros results [= <-].
      destruct (Hres xs eq_refl) as (Hlen & Hin & Hfetch).
      split; [simpl; now rewrite Hlen |]. split.
      * intros u [<- | Hu]; apply in_or_app.
        -- right. specialize (Hne x1 eq_refl).
           destruct q1 as [| a q1]; [contradiction |].
           apply Forall_cons in Hq1 as [<- _]. now left.
        -- left. now apply Hin.
      * intros [| i] u x Hu Hx; simpl in Hu, Hx.
        -- injection Hu as <-. injection Hx as <-. now exists log, (q1 ++ log)%list.
        -- exact (Hfetch i u x Hu Hx).
    + injection H as <- <-. exists q1. split; [reflexivity |]. split; [exact Hq1' | easy].
    + injection H as <- <-. exists q1. split; [reflexivity |]. split; [exact Hq1' | easy].
Qed.



(** The log and the output of a batch. *)
Lemma download_thread_log (fuel : nat) (urls : list string) (log : list string)
  (r : outcome (list (string * string))) (log' : list string) :
  _download_thread net fuel urls log = (r, log') ->
  exists reqs,
    log' = (reqs ++ log)%list /\
    Forall (fun u => In u urls) reqs /\
    (forall out, r = Return out ->
       (forall u, In u urls -> In u reqs) /\
       exists results,
         for_each_M (fetch fuel) urls log = (Return results, log') /\
         length results = length urls /\
         out = keep_results results urls).
Proof.
  unfold _download_thread, bind. intros H.
  destruct (for_each_M (fetch fuel) urls log) as [r1 l1] eqn:H1.
  destruct (for_each_fetch _ _ _ _ _ H1) as (reqs & -> & Hreqs & Hres).
  exists reqs.
  destruct r1 as [results | e |]; unfold ret in H; injection H as <- <-;
    (split; [reflexivity |]); (split; [exact Hreqs |]); try easy.
  intros out [= <-]. destruct (Hres results eq_refl) as (Hlen & Hin & _).
  split; [exact Hin |]. now exists results.
Qed.


End Fetch.



(** ** The order of the steps of [download] *)

Lemma for_each_length {A B : Type} (f : A -> outcome B) (xs : list A) (ys : list B) :
  for_each f xs = Return ys -> length ys = length xs.
Proof.
  revert ys. induction xs as [| x xs IH]; intros ys H; simpl in H.
  - now injection H as <-.
  - destruct (f x) as [y | |]; simpl in H; try discriminate.
    destruct (for_each f xs) as [ys' | |]; simpl in H; try discriminate.
    injection H as <-. simpl. now rewrite (IH ys' eq_refl).
Qed.

Section Download.

Variable holidays_between : option date -> option date -> outcome (list date).
Variable net : list string -> string -> response.
Variable yesterday : date.

Abbreviation dates_of start end_ :=
  (_date_list_generator holidays_between
     (default yesterday start) (default yesterday end_) false false).

(** The first part of [download] requests index URLs only, and when it
    returns it has requested the index of every date of the range, of
    which there is at least one. *)
Lemma download_index_log (fuel : nat) (start end_ : option date)
  (log : list string) (r : outcome Pandas.DataFrame) (log' : list string) :
  download_index holidays_between net yesterday fuel start end_ log = (r, log') ->
  exists reqs,
    log' = (reqs ++ log)%list /\
    Forall (fun u => exists d, u = index_url d) reqs /\
    (forall df, r = Return df ->
       reqs <> [] /\
       exists dates,
         dates_of start end_ = Return dates /\
         forall d, In d dates -> In (index_url d) reqs).
Proof.
  unfold download_index, bind, lift. intros H.
  destruct (dates_of start end_) as [dates | e |] eqn:Hdates;
    try (injection H as <- <-; exists []; repeat split; [constructor | easy | easy]).
  destruct (_download_thread net fuel (map index_url dates) log) as [r1 l1] eqn:H1.
  destruct (download_thread_log _ _ _ _ _ _ H1) as (reqs & -> & Hreqs & Hout).
  assert (Hidx : Forall (fun u => exists d, u = index_url d) reqs).
  { eapply List.Forall_impl; [| exact Hreqs]. intros u Hu.
    apply in_map_iff in Hu as (d & <- & _). now exists d. }
  exists reqs. split; [| split; [exact Hidx |]].
  - destruct r1 as [out | e |]; [| now injection H as _ <- ..].
    destruct (for_each _ out) as [dfs | e |]; [| now injection H as _ <- ..].
    now injection H as _ <-.
  - intros df ->.
    destruct r1 as [out | e |]; try discriminate.
    destruct (for_each _ out) as [dfs | e |] eqn:Hdfs; try discriminate.
    destruct (Hout out eq_refl) as (Hall & results & _ & Hlen & ->).
    destruct dfs as [| df0 dfs]; [discriminate |].
    apply for_each_length in Hdfs.
    split.
    + destruct (map index_url dates) as [| u urls] eqn:Hurls.
      * unfold keep_results in Hdfs. rewrite zip_with_nil_r in Hdfs. discriminate.
      * intros ->. exact (Hall u (or_introl eq_refl)).
    + exists dates. split; [reflexivity |]. intros d Hd.
      apply Hall. now apply in_map.
Qed.

(** A form that is false, such as [None] or [0], is not checked: the
    table of the index rows goes to the second part unfiltered. *)
Lemma download_falsy_form (fuel : nat) (start end_ : option date)
  (form : pyval) (log : list string) :
  truthy form = false ->
  download holidays_between net yesterday fuel start end_ form log =
  bind (download_index holidays_between net yesterday fuel start end_)
       (download_forms net fuel) log.
Proof.
  intros Hfalse. unfold download, bind. rewrite Hfalse. unfold ret.
  destruct (download_index _ _ _ _ _ _ _) as [[df | e |] l]; reflexivity.
Qed.

(** C1, as amended.  With a form that is true and not a string,
    [download] first runs the index batch; when that part returns, the
    type error is raised, after at least one request and after the index
    of every date of the range was requested, and before any request for
    a filing; when that part fails, its failure is the result.  No table
    is ever returned.  A form that is false is not checked, whatever its
    type: both batches run. *)
Theorem download_type_error_after_index (fuel : nat) (start end_ : option date)
  (form : pyval) (log : list string) :
  (truthy form = true ->
   isinstance_str form = false ->
   download holidays_between net yesterday fuel start end_ form log =
     match download_index holidays_between net yesterday fuel start end_ log with
     | (Return _, log') => (Raise (TypeError "form type must be a string"), log')
     | (Raise e, log') => (Raise e, log')
     | (OutOfFuel, log') => (OutOfFuel, log')
     end /\
   (forall r log',
       download holidays_between net yesterday fuel start end_ form log = (r, log') ->
       (forall df, r <> Return df) /\
       exists reqs,
         log' = (reqs ++ log)%list /\
         Forall (fun u => exists d, u = index_url d) reqs /\
         (forall df,
             download_index holidays_between net yesterday fuel start end_ log =
               (Return df, log') ->
             r = Raise (TypeError "form type must be a string") /\
             reqs <> [] /\
             exists dates,
               dates_of start end_ = Return dates /\
               forall d, In d dates -> In (index_url d) reqs))) /\
  (truthy form = false ->
   download holidays_between net yesterday fuel start end_ form log =
   bind (download_index holidays_between net yesterday fuel start end_)
        (download_forms net fuel) log).
Proof.
  split; [| apply download_falsy_form].
  intros Htrue Hstr.
  assert (Heq :
    download holidays_between net yesterday fuel start end_ form log =
    match download_index holidays_between net yesterday fuel start end_ log with
    | (Return _, log') => (Raise (TypeError "form type must be a string"), log')
    | (Raise e, log') => (Raise e, log')
    | (OutOfFuel, log') => (OutOfFuel, log')
    end).
  { unfold download, bind. rewrite Htrue, Hstr. simpl.
    destruct (download_index _ _ _ _ _ _ _) as [[df | e |] l]; reflexivity. }
  split; [exact Heq |].
  intros r log' H. rewrite Heq in H.
  destruct (download_index _ _ _ _ _ _ _) as [r1 l1] eqn:Hidx.
  destruct (download_index_log _ _ _ _ _ _ Hidx) as (reqs & -> & Hreqs & Hret).
  assert (Hlog : log' = (reqs ++ log)%list)
    by (destruct r1; now injection H as _ <-).
  split.
  - intros df ->. destruct r1; discriminate.
  - exists reqs. split; [exact Hlog |]. split; [exact Hreqs |].
    intros df [= -> _]. split; [now injection H as <- _ |].
    exact (Hret df eq_refl).
Qed.

End Download.

(** With the index served and one filing in it, the error comes after
    the request for the index. *)
Lemma download_type_error_after_index_witness :
  truthy (PyInt 123) = true /\
  isinstance_str (PyInt 123) = false /\
  download Examples.holidays_2020 Examples.net_sec (mkdate 2020 1 2) 1
    None None (PyInt 123) [] =
  (Raise (TypeError "form type must be a string"),
   ["https://www.sec.gov/Archives/edgar/daily-index/2020/QTR1/company.20200102.idx"]).
Proof.
  split; [reflexivity |]. split; [reflexivity |].
  destruct (proj1 (download_type_error_after_index
                     Examples.holidays_2020 Examples.net_sec (mkdate 2020 1 2) 1
                     None None (PyInt 123) []) eq_refl eq_refl) as [Heq _].
  rewrite Heq. reflexivity.
Defined.

(** C1, the claim as stated fails.  [download(form=123)], run the day
    after 2020-01-02, raises the type error with the request for the
    index of that day already in the log; and [download(form=0)], whose
    form is not a string either, raises no type error: it requests the
    index and the two filings of the index and returns a table. *)
Lemma download_type_error_counterexample :
  (exists url,
      download Examples.holidays_2020 Examples.net_sec (mkdate 2020 1 2) 1
        None None (PyInt 123) [] =
      (Raise (TypeError "form type must be a string"), [url]) /\
      url = index_url (mkdate 2020 1 2)) /\
  (exists df log,
      isinstance_str (PyInt 0) = false /\
      download Examples.holidays_2020 Examples.net_sec (mkdate 2020 1 2) 1
        None None (PyInt 0) [] = (Return df, log) /\
      length log = 3).
Proof.
  split.
  - eexists. split; reflexivity.
  - eexists. eexists. split; [reflexivity |].
    split; [vm_compute; reflexivity | reflexivity].
Qed.

(** ** The parser of an index *)

Lemma is_cr_linebreak (c : ascii) :
  Py.is_cr c = true -> Py.is_linebreak c = true.
Proof.
  unfold Py.is_cr, Py.is_linebreak. intros H.
  apply Nat.eqb_eq in H. now rewrite H.
Qed.

(** A line without a boundary, ended by a line feed, is the first line
    that [splitlines] finds, and the rest of the text yields the rest. *)
Lemma splitlines_line (l rest : string) :
  Text.one_line l = true ->
  Py.splitlines (l ++ Text.LF ++ rest) = l :: Py.splitlines rest.
Proof.
  induction l as [| c l IH]; intros Hl.
  - reflexivity.
  - simpl in Hl. apply andb_true_iff in Hl as [Hc Hl].
    apply negb_true_iff in Hc.
    assert (Hcr : Py.is_cr c = false).
    { destruct (Py.is_cr c) eqn:E; [| reflexivity].
      apply is_cr_linebreak in E. congruence. }
    change (String c l ++ Text.LF ++ rest) with (String c (l ++ Text.LF ++ rest)).
    cbn -[Py.is_cr Py.is_linebreak Py.is_lf String.append].
    rewrite Hcr, Hc, (IH Hl). reflexivity.
Qed.

Lemma splitlines_unlines (ls : list string) :
  Forall (fun l => Text.one_line l = true) ls ->
  Py.splitlines (Text.unlines ls) = ls.
Proof.
  induction 1 as [| l ls Hl _ IH]; [reflexivity |].
  simpl. rewrite (splitlines_line _ _ Hl). now rewrite IH.
Qed.

Lemma max_list_const (w : nat) (ns : list nat) :
  ns <> [] -> Forall (eq w) ns -> max_list ns = w.
Proof.
  intros Hne Hall. induction Hall as [| n ns <- Hns IH]; [contradiction |].
  simpl. destruct ns as [| m ns]; [simpl; lia |].
  rewrite IH by discriminate. lia.
Qed.

(** Rows that all have the width of the table are its rows. *)
Lemma DataFrame_of_rows_exact (data : list (list string)) (cols : list string) :
  Forall (fun r => length r = length cols) data ->
  Pandas.DataFrame_of_rows data cols =
  Return (Pandas.mkframe cols (map (map Some) data)).
Proof.
  intros Hall. unfold Pandas.DataFrame_of_rows.
  destruct data as [| r data]; [reflexivity |].
  rewrite (max_list_const (length cols)).
  - rewrite Nat.eqb_refl. do 2 f_equal. apply map_ext_in.
    intros x Hx. rewrite Forall_forall in Hall.
    unfold Pandas.pad. rewrite length_map, (Hall x).
    + rewrite Nat.sub_diag. apply app_nil_r.
    + now apply list_elem_of_In.
  - discriminate.
  - apply Forall_fmap. eapply List.Forall_impl; [| exact Hall].
    intros x Hx. simpl. now symmetry.
Qed.

(** C5. For a document of 11 header lines followed by N rows of five
    tokens each, [_idx_to_dataframe] passes over the 11 lines, whatever
    they hold, and yields N records: the record of a row has the five
    tokens of the row under [company_name], [form_type], [cik],
    [date_filed] and [file_name], in this order, and the URL of the
    index under [idx_name]. *)
Theorem idx_to_dataframe_rows (header rows : list string) (idx_url : string) :
  length header = 11 ->
  Forall (fun l => Text.one_line l = true) (header ++ rows) ->
  Forall (fun row => length (idx_tokens row) = 5) rows ->
  exists df,
    _idx_to_dataframe (Text.unlines (header ++ rows)) idx_url = Return df /\
    Pandas.columns df = idx_columns /\
    length (Pandas.rows df) = length rows /\
    forall i row,
      rows !! i = Some row ->
      exists a b c d e,
        idx_tokens row = [a; b; c; d; e] /\
        Pandas.rows df !! i =
          Some [Some a; Some b; Some c; Some d; Some e; Some idx_url] /\
        forall r, Pandas.rows df !! i = Some r ->
          Pandas.get df r "company_name" = Some a /\
          Pandas.get df r "form_type" = Some b /\
          Pandas.get df r "cik" = Some c /\
          Pandas.get df r "date_filed" = Some d /\
          Pandas.get df r "file_name" = Some e /\
          Pandas.get df r "idx_name" = Some idx_url.
Proof.
  intros Hheader Hlines Hrows.
  unfold _idx_to_dataframe. rewrite (splitlines_unlines _ Hlines).
  replace (skipn 11 (header ++ rows)) with rows.
  2:{ rewrite <- Hheader. rewrite skipn_app, Nat.sub_diag, skipn_all. reflexivity. }
  rewrite DataFrame_of_rows_exact.
  2:{ apply Forall_fmap. eapply List.Forall_impl; [| exact Hrows].
      intros row Hrow. unfold idx_row. simpl.
      rewrite length_app, Hrow. reflexivity. }
  eexists. split; [reflexivity |]. split; [reflexivity |].
  split; [simpl; now rewrite !length_map |].
  intros i row Hi.
  assert (Hrow : length (idx_tokens row) = 5).
  { rewrite Forall_forall in Hrows. apply Hrows.
    apply list_elem_of_lookup. now exists i. }
  destruct (idx_tokens row) as [| a [| b [| c [| d [| e [| f t]]]]]] eqn:Htok;
    try discriminate.
  exists a, b, c, d, e. split; [reflexivity |].
  assert (Hcell : map (map Some) (map (idx_row idx_url) rows) !! i =
                  Some [Some a; Some b; Some c; Some d; Some e; Some idx_url]).
  { rewrite !list_lookup_fmap, Hi. simpl. unfold idx_row. now rewrite Htok. }
  split; [exact Hcell |].
  intros r Hr. pose proof (eq_trans (eq_sym Hr) Hcell) as Er. injection Er as ->.
  repeat split; reflexivity.
Qed.

(** The index [Examples.idx_one]: a banner of 11 lines and two rows. *)
Lemma idx_to_dataframe_rows_witness :
  length Examples.idx_header = 11 /\
  _idx_to_dataframe Examples.idx_one "src" =
  Return
    (Pandas.mkframe idx_columns
       [ [Some "APPLE INC"; Some "4"; Some "320193"; Some "20200102";
          Some "edgar/data/320193/0000320193-20-000001.txt"; Some "src"];
         [Some "ZYX CORP"; Some "10-K"; Some "1234"; Some "20200102";
          Some "edgar/data/1234/0001234-20-000007.txt"; Some "src"] ]).
Proof.
  split; [reflexivity |].
  destruct (idx_to_dataframe_rows Examples.idx_header Examples.idx_rows "src")
    as (df & Hdf & _).
  - reflexivity.
  - apply Forall_forall. intros l Hl. apply list_elem_of_In in Hl.
    simpl in Hl. intuition (subst; reflexivity).
  - apply Forall_forall. intros l Hl. apply list_elem_of_In in Hl.
    simpl in Hl. intuition (subst; reflexivity).
  - reflexivity.
Defined.

(** ** The extraction scan *)

(** Membership in a list that is written out. *)
Ltac in_list := simpl; repeat first [left; reflexivity | right].

Lemma chain_keys :
  Forall (fun t : string * string * shape =>
            In (snd (fst t)) datadict_keys /\
            snd (fst t) <> "URL" /\
            (snd t = NextLine -> In (snd (fst t)) Scan.next_keys))
         chain.
Proof.
  unfold chain.
  repeat (apply List.Forall_cons;
          [ split; [in_list | split; [discriminate |]];
            intros H; first [discriminate H | in_list] |]).
  apply List.Forall_nil.
Qed.

Lemma next_keys_keys (k : string) :
  In k Scan.next_keys ->
  In k datadict_keys /\ k <> "URL" /\ k <> "Transaction Code".
Proof.
  simpl. intros [<- | [<- | [<- | [<- | [<- | []]]]]];
    (split; [in_list | split; discriminate]).
Qed.

Lemma scan_start_invariant (url : string) :
  exists st0,
    scan_start url = Return st0 /\
    Scan.invariant st0 /\
    nextline st0 = false /\
    (forall k, In k datadict_keys -> k <> "URL" -> datadict st0 !! k = Some []).
Proof.
  eexists. split; [reflexivity |]. split; [| split; [reflexivity |]].
  - constructor.
    + simpl. intros k Hk.
      repeat (destruct Hk as [<- | Hk];
              [eexists; split; [reflexivity | simpl; lia] |]).
      contradiction.
    + now exists url.
    + discriminate.
  - simpl. intros k Hk Hne.
    repeat (destruct Hk as [<- | Hk]; [first [reflexivity | contradiction] |]).
    contradiction.
Qed.

(** Filling a key that has no value keeps the invariant. *)
Lemma invariant_fill (st : scan_state) (key v : string) (lab : option string) :
  Scan.invariant st ->
  In key datadict_keys ->
  key <> "URL" ->
  Scan.invariant (mkstate (<[key := [v]]> (datadict st)) false lab).
Proof.
  intros [Hkeys Hurl _] Hkey Hne. constructor; simpl.
  - intros k Hk. destruct (decide (key = k)) as [<- | Hk'].
    + exists [v]. rewrite lookup_insert_eq. split; [reflexivity | simpl; lia].
    + rewrite lookup_insert_ne by exact Hk'. now apply Hkeys.
  - destruct Hurl as [u Hu]. exists u. now rewrite lookup_insert_ne.
  - discriminate.
Qed.

Lemma chain_step_cons (t : string * string * shape)
  (tests : list (string * string * shape)) (line : string) (st st' : scan_state) :
  Scan.chain_step tests line st st' -> Scan.chain_step (t :: tests) line st st'.
Proof.
  intros [| tag key Hin Htag Hkey | tag key Hin Htag Hkey].
  - apply Scan.chain_pass.
  - apply (Scan.chain_same _ _ _ tag key); [now right | exact Htag | exact Hkey].
  - apply (Scan.chain_next _ _ _ tag key); [now right | exact Htag | exact Hkey].
Qed.

(** The chain never raises on a state of the invariant, and does one of
    the three things of [Scan.chain_step]. *)
Lemma scan_chain_step (tests : list (string * string * shape)) (line : string)
  (st : scan_state) :
  (forall t, In t tests -> In (snd (fst t)) datadict_keys) ->
  Scan.invariant st ->
  exists st', scan_chain tests line st = Return st' /\
              Scan.chain_step tests line st st'.
Proof.
  intros Htests Hinv. induction tests as [| [[tag key] sh] tests IH].
  - exists st. split; [reflexivity | apply Scan.chain_pass].
  - assert (IH' : exists st', scan_chain tests line st = Return st' /\
                              Scan.chain_step ((tag, key, sh) :: tests) line st st').
    { destruct IH as (st' & Hrun & Hstep).
      - intros t Ht. apply Htests. now right.
      - exists st'. split; [exact Hrun | now apply chain_step_cons]. }
    simpl. destruct (Py.contains tag line) eqn:Htag; [| exact IH'].
    destruct (Scan.inv_url _ Hinv) as [u Hu]. rewrite Hu. simpl.
    destruct (Scan.inv_keys _ Hinv key) as (l & Hl & Hlen).
    { apply (Htests (tag, key, sh)). now left. }
    rewrite Hl. simpl.
    destruct l as [| x l].
    + simpl. destruct sh.
      * unfold append_value. simpl. rewrite Hl. simpl. eexists. split; [reflexivity |].
        apply (Scan.chain_same _ _ _ tag key); [now left | exact Htag | exact Hl].
      * eexists. split; [reflexivity |].
        apply (Scan.chain_next _ _ _ tag key); [now left | exact Htag | exact Hl].
    + destruct l as [| y l]; [| simpl in Hlen; lia]. simpl. exact IH'.
Qed.

Lemma chain_step_invariant (line : string) (st st' : scan_state) :
  Scan.invariant st ->
  nextline st = false ->
  Scan.chain_step chain line st st' ->
  Scan.invariant st'.
Proof.
  intros Hinv Hnl Hstep.
  pose proof chain_keys as Hchain. rewrite List.Forall_forall in Hchain.
  destruct Hstep as [| tag key Hin Htag Hkey | tag key Hin Htag Hkey].
  - exact Hinv.
  - destruct (Hchain _ Hin) as (Hk & Hne & _). simpl in Hk, Hne.
    rewrite Hnl. now apply invariant_fill.
  - destruct (Hchain _ Hin) as (Hk & Hne & Hnext). simpl in Hk, Hne, Hnext.
    destruct Hinv as [Hkeys Hurl _]. constructor; simpl; [exact Hkeys | exact Hurl |].
    intros _. exists key. split; [reflexivity |]. split; [now apply Hnext | exact Hkey].
Qed.

(** One iteration of the loop never raises on a state of the invariant,
    does one of the things of [Scan.line_step], and keeps the invariant. *)
Lemma scan_line_step (line : string) (st : scan_state) :
  Scan.invariant st ->
  exists st', scan_line st line = Return st' /\
              Scan.line_step line st st' /\
              Scan.invariant st'.
Proof.
  intros Hinv. unfold scan_line. destruct (nextline st) eqn:Hnl.
  - destruct (Scan.inv_next _ Hinv Hnl) as (key & Hlab & Hkey & Hempty).
    destruct (next_keys_keys _ Hkey) as (Hk & Hne & _).
    rewrite Hlab. unfold append_value. simpl. rewrite Hempty. simpl.
    eexists. split; [reflexivity |]. split.
    + now apply (Scan.line_value_of _ _ key).
    + now apply invariant_fill.
  - destruct (scan_chain_step chain line st) as (st' & Hrun & Hstep).
    + intros t Ht. pose proof chain_keys as Hchain.
      rewrite List.Forall_forall in Hchain. now apply Hchain.
    + exact Hinv.
    + exists st'. split; [exact Hrun |]. split.
      * now apply Scan.line_chain.
      * now apply (chain_step_invariant line st).
Qed.

(** The scan of any lines from a state of the invariant returns, in a
    state of the invariant. *)
Lemma scan_invariant (lines : list string) (st : scan_state) :
  Scan.invariant st ->
  exists st', scan lines st = Return st' /\ Scan.invariant st'.
Proof.
  revert st. induction lines as [| line lines IH]; intros st Hinv.
  - now exists st.
  - destruct (scan_line_step line st Hinv) as (st1 & Hrun & _ & Hinv1).
    destruct (IH st1 Hinv1) as (st' & Hrun' & Hinv').
    exists st'. simpl. rewrite Hrun. simpl. now split.
Qed.

Lemma scan_app (pre post : list string) (st : scan_state) :
  scan (pre ++ post) st = try st1 := scan pre st in scan post st1.
Proof.
  revert st. induction pre as [| line pre IH]; intros st; [reflexivity |].
  simpl. destruct (scan_line st line) as [st1 | e |]; simpl; [apply IH | easy | easy].
Qed.

Lemma invariant_bounded (st : scan_state) :
  Scan.invariant st -> Scan.bounded st.
Proof.
  intros [Hkeys [u Hu] _]. exists [u]. split; [exact Hu |]. split; [reflexivity |].
  exact Hkeys.
Qed.

Lemma line_step_appended (line : string) (st st' : scan_state) :
  Scan.invariant st ->
  Scan.line_step line st st' ->
  Scan.appended_behind line st st'.
Proof.
  intros Hinv Hstep key0. destruct (Scan.inv_url _ Hinv) as [u Hu].
  assert (Hfill : forall key,
             datadict st !! key = Some [] ->
             <[key := [line_value line]]> (datadict st) !! key0 = datadict st !! key0 \/
             exists old u0,
               datadict st !! key0 = Some old /\
               datadict st !! "URL" = Some u0 /\
               length old < length u0 /\
               <[key := [line_value line]]> (datadict st) !! key0 =
                 Some (old ++ [line_value line])%list).
  { intros key Hkey. destruct (decide (key = key0)) as [<- | Hne].
    - right. exists [], [u]. rewrite lookup_insert_eq.
      repeat split; [exact Hkey | exact Hu | simpl; lia].
    - left. now rewrite lookup_insert_ne. }
  destruct Hstep as [key Hnl Hlab Hkey Hempty | st' Hnl Hchain].
  - simpl. now apply Hfill.
  - destruct Hchain as [| tag key Hin Htag Hkey | tag key Hin Htag Hkey]; simpl.
    + now left.
    + now apply Hfill.
    + now left.
Qed.

(** C2. At every point of the scan of a document, whatever its lines,
    the scan has not raised, every column is at most as long as the
    column of the URL, which has one value, and the line read next
    appends its value to a column only if that column is strictly behind
    the count of the URL. *)
Theorem scan_columns_bounded (url : string) (pre : list string) (line : string) :
  exists st0 st1 st2,
    scan_start url = Return st0 /\
    scan pre st0 = Return st1 /\
    scan_line st1 line = Return st2 /\
    scan (pre ++ [line]) st0 = Return st2 /\
    Scan.bounded st0 /\ Scan.bounded st1 /\ Scan.bounded st2 /\
    Scan.appended_behind line st1 st2.
Proof.
  destruct (scan_start_invariant url) as (st0 & Hstart & Hinv0 & _).
  destruct (scan_invariant pre st0 Hinv0) as (st1 & Hpre & Hinv1).
  destruct (scan_line_step line st1 Hinv1) as (st2 & Hline & Hstep & Hinv2).
  exists st0, st1, st2. repeat split; try assumption.
  - rewrite scan_app, Hpre. simpl. now rewrite Hline.
  - now apply invariant_bounded.
  - now apply invariant_bounded.
  - now apply invariant_bounded.
  - now apply line_step_appended.
Qed.

(** ** The first transaction code *)

Lemma chain_code_tag (tag : string) (sh : shape) :
  In (tag, "Transaction Code", sh) chain -> tag = "<transactionCode>".
Proof.
  simpl. intros H.
  repeat (destruct H as [H | H]; [first [discriminate H | now injection H] |]).
  contradiction.
Qed.

(** What every iteration keeps is kept by the scan. *)
Lemma scan_preserves (Q : scan_state -> Prop) (lines : list string)
  (st st' : scan_state) :
  Scan.invariant st ->
  Q st ->
  (forall line s s',
      In line lines -> Scan.invariant s -> Q s ->
      Scan.line_step line s s' -> Q s') ->
  scan lines st = Return st' ->
  Q st' /\ Scan.invariant st'.
Proof.
  revert st. induction lines as [| line lines IH]; intros st Hinv HQ Hkeep Hrun.
  - injection Hrun as <-. now split.
  - simpl in Hrun.
    destruct (scan_line_step line st Hinv) as (st1 & Hline & Hstep & Hinv1).
    rewrite Hline in Hrun. simpl in Hrun.
    apply (IH st1); [exact Hinv1 | | | exact Hrun].
    + apply (Hkeep line st st1); [now left | exact Hinv | exact HQ | exact Hstep].
    + intros l s s' Hl. apply Hkeep. now right.
Qed.

(** A line without the tag of the transaction code leaves the column of
    the code as it is. *)
Lemma line_step_code_kept (line : string) (st st' : scan_state) :
  Py.contains "<transactionCode>" line = false ->
  Scan.line_step line st st' ->
  datadict st' !! "Transaction Code" = datadict st !! "Transaction Code".
Proof.
  intros Htag Hstep.
  destruct Hstep as [key Hnl Hlab Hkey Hempty | st' Hnl Hchain].
  - simpl. destruct (next_keys_keys _ Hkey) as (_ & _ & Hne).
    now rewrite lookup_insert_ne.
  - destruct Hchain as [| tag key Hin Htag' Hkey | tag key Hin Htag' Hkey]; simpl;
      try reflexivity.
    destruct (decide (key = "Transaction Code")) as [-> | Hne].
    + apply chain_code_tag in Hin. subst tag. congruence.
    + now rewrite lookup_insert_ne.
Qed.

(** A column that has its value keeps it. *)
Lemma line_step_filled_kept (line : string) (st st' : scan_state)
  (k v : string) :
  datadict st !! k = Some [v] ->
  Scan.line_step line st st' ->
  datadict st' !! k = Some [v].
Proof.
  intros Hk Hstep.
  destruct Hstep as [key Hnl Hlab Hkey Hempty | st' Hnl Hchain].
  - simpl. rewrite lookup_insert_ne; [exact Hk | congruence].
  - destruct Hchain as [| tag key Hin Htag' Hkey | tag key Hin Htag' Hkey]; simpl;
      try exact Hk.
    rewrite lookup_insert_ne; [exact Hk | congruence].
Qed.

(** The tests whose tag is not on the line are passed over. *)
Lemma scan_chain_until (key : string) (tests : list (string * string * shape))
  (line : string) (st : scan_state) :
  Forall (fun tag => Py.contains tag line = false) (Scan.tags_before key tests) ->
  scan_chain tests line st = scan_chain (Scan.tests_from key tests) line st.
Proof.
  induction tests as [| [[tag k] sh] tests IH]; intros Hbefore; [reflexivity |].
  cbn [Scan.tags_before Scan.tests_from] in *.
  destruct (String.eqb k key); [reflexivity |].
  apply List.Forall_cons_iff in Hbefore as [Htag Hbefore].
  cbn [scan_chain]. rewrite Htag. now apply IH.
Qed.

(** The line that reaches the test of the transaction code with the tag
    on it, while the column is empty, gives the column its value. *)
Lemma scan_line_code (line : string) (st : scan_state) :
  Scan.invariant st ->
  nextline st = false ->
  datadict st !! "Transaction Code" = Some [] ->
  Forall (fun tag => Py.contains tag line = false)
         (Scan.tags_before "Transaction Code" chain) ->
  Py.contains "<transactionCode>" line = true ->
  scan_line st line =
  Return (mkstate (<["Transaction Code" := [line_value line]]> (datadict st))
                  false (label st)).
Proof.
  intros Hinv Hnl Hcode Hbefore Htag.
  destruct (Scan.inv_url _ Hinv) as [u Hu].
  unfold scan_line. rewrite Hnl.
  rewrite (scan_chain_until "Transaction Code" chain line st Hbefore).
  change (Scan.tests_from "Transaction Code" chain)
    with (("<transactionCode>", "Transaction Code", SameLine) ::
          Scan.tests_from "Number of Shares" chain).
  cbn [scan_chain]. rewrite Htag.
  unfold append_value, getitem. rewrite Hu, Hcode.
  cbn [obind length Nat.eqb negb default app]. now rewrite Hnl.
Qed.

(** The table built from the dictionary of a state of the invariant has
    one row, and that row holds, under the code, the value of the
    column. *)
Lemma DataFrame_of_dict_code (st : scan_state) (df : Pandas.DataFrame) (v : string) :
  Scan.invariant st ->
  datadict st !! "Transaction Code" = Some [v] ->
  Pandas.DataFrame_of_dict datadict_keys (datadict st) = Return df ->
  Pandas.columns df = datadict_keys /\
  exists row, Pandas.rows df = [row] /\
              Pandas.get df row "Transaction Code" = Some v.
Proof.
  intros Hinv Hcode Hdf. destruct (Scan.inv_url _ Hinv) as [u Hu].
  unfold Pandas.DataFrame_of_dict in Hdf.
  cbn [map datadict_keys] in Hdf. rewrite Hu, Hcode in Hdf.
  cbn [default length] in Hdf.
  match type of Hdf with
  | (if ?b then _ else _) = _ => destruct b; [| discriminate]
  end.
  injection Hdf as <-. split; [reflexivity |].
  eexists. split; [reflexivity |]. reflexivity.
Qed.

(** C3, as amended.  In a document that [_form_qc] turns into a record,
    take the first line that holds [<transactionCode>]; if the scan is
    not waiting for the value of a tag when it reads this line, and the
    line holds none of the tags that the chain tests before the code,
    then the record has, under [Transaction Code], this line without its
    markup, and no later line changes that: at every later point of the
    scan the column of the code holds this one value.  A later line is
    not ignored for the other columns: whatever it holds, the tag of the
    code included, a later line that is read while the value of a tag is
    awaited is recorded as that value. *)
Theorem form_qc_first_transaction_code (formtext url : string)
  (pre post : list string) (line : string) (df : Pandas.DataFrame) :
  Py.filter_None (Py.splitlines formtext) = (pre ++ line :: post)%list ->
  Forall (fun l => Py.contains "<transactionCode>" l = false) pre ->
  Py.contains "<transactionCode>" line = true ->
  Scan.pending_after url pre = false ->
  Forall (fun tag => Py.contains tag line = false)
         (Scan.tags_before "Transaction Code" chain) ->
  _form_qc formtext url = Return (Some df) ->
  Pandas.columns df = datadict_keys /\
  (exists row,
      Pandas.rows df = [row] /\
      Pandas.get df row "Transaction Code" = Some (line_value line)) /\
  (forall (read rest : list string) (st : scan_state),
      post = (read ++ rest)%list ->
      (try st0 := scan_start url in scan (pre ++ line :: read) st0) = Return st ->
      datadict st !! "Transaction Code" = Some [line_value line]) /\
  (forall (read rest : list string) (next : string) (st : scan_state),
      post = (read ++ next :: rest)%list ->
      (try st0 := scan_start url in scan (pre ++ line :: read) st0) = Return st ->
      nextline st = true ->
      exists key st',
        label st = Some key /\ In key Scan.next_keys /\
        scan_line st next = Return st' /\
        datadict st' !! key = Some [line_value next]).
Proof.
  intros Hlines Hpre Htag Hpending Hbefore Hrun.
  destruct (scan_start_invariant url) as (st0 & Hstart & Hinv0 & _ & Hempty).
  destruct (scan_invariant pre st0 Hinv0) as (st1 & Hrun1 & Hinv1).
  assert (Hcode1 : datadict st1 !! "Transaction Code" = Some []).
  { apply (scan_preserves
             (fun s => datadict s !! "Transaction Code" = Some []) pre st0 st1);
      [exact Hinv0 | apply Hempty; [in_list | discriminate] | | exact Hrun1].
    intros l s s' Hl _ Hs Hstep. rewrite List.Forall_forall in Hpre.
    now rewrite (line_step_code_kept l s s' (Hpre l Hl) Hstep). }
  assert (Hnl1 : nextline st1 = false).
  { unfold Scan.pending_after in Hpending. rewrite Hstart in Hpending.
    simpl in Hpending. now rewrite Hrun1 in Hpending. }
  pose proof (scan_line_code line st1 Hinv1 Hnl1 Hcode1 Hbefore Htag) as Hline.
  set (st2 := mkstate (<["Transaction Code" := [line_value line]]> (datadict st1))
                      false (label st1)) in Hline.
  assert (Hinv2 : Scan.invariant st2)
    by (apply invariant_fill; [exact Hinv1 | in_list | discriminate]).
  assert (Hlater : forall read st,
             scan read st2 = Return st ->
             datadict st !! "Transaction Code" = Some [line_value line] /\
             Scan.invariant st).
  { intros read st Hread.
    apply (scan_preserves
             (fun s => datadict s !! "Transaction Code" = Some [line_value line])
             read st2 st); [exact Hinv2 | apply lookup_insert_eq | | exact Hread].
    intros l s s' _ _ Hs Hstep. exact (line_step_filled_kept l s s' _ _ Hs Hstep). }
  assert (Hscan : forall read,
             (try s0 := scan_start url in scan (pre ++ line :: read) s0) =
             scan read st2).
  { intros read. rewrite Hstart. cbn [obind]. rewrite scan_app, Hrun1.
    cbn [obind scan]. now rewrite Hline. }
  unfold _form_qc in Hrun.
  destruct (qualifies formtext); [| discriminate].
  rewrite Hlines in Hrun.
  rewrite Hstart in Hrun. cbn [obind] in Hrun.
  rewrite scan_app, Hrun1 in Hrun. cbn [obind scan] in Hrun.
  rewrite Hline in Hrun. cbn [obind] in Hrun.
  destruct (scan post st2) as [st3 | e |] eqn:Hrun3; try discriminate.
  cbn [obind] in Hrun.
  destruct (Hlater post st3 Hrun3) as [Hcode3 Hinv3].
  destruct (Pandas.DataFrame_of_dict datadict_keys (datadict st3)) as [df3 | e |] eqn:Hdf;
    try discriminate.
  cbn [obind] in Hrun. assert (E : df3 = df) by congruence. subst df3.
  destruct (DataFrame_of_dict_code st3 df _ Hinv3 Hcode3 Hdf) as [Hcols Hrow].
  split; [exact Hcols |]. split; [exact Hrow |]. split.
  - intros read rest st _ Hst. rewrite Hscan in Hst.
    exact (proj1 (Hlater read st Hst)).
  - intros read rest next st _ Hst Hnl. rewrite Hscan in Hst.
    destruct (Hlater read st Hst) as [_ Hinv].
    destruct (Scan.inv_next _ Hinv Hnl) as (key & Hlab & Hkey & Hnone).
    exists key. eexists. split; [exact Hlab |]. split; [exact Hkey |]. split.
    + unfold scan_line. rewrite Hnl, Hlab. unfold append_value, getitem.
      rewrite Hnone. cbn [obind default app]. reflexivity.
    + cbn [datadict]. apply lookup_insert_eq.
Qed.

(** The filing [Documents.form_code_after_shares]: the code [S] is on a
    line of its own after the block of the transaction date; the code
    [P], on the line after the tag of the number of shares, does not
    change the code and is recorded as the number of shares. *)
Lemma form_qc_first_transaction_code_witness :
  Py.contains "<transactionCode>" "<transactionCode>S</transactionCode>" = true /\
  exists df row,
    _form_qc Documents.form_code_after_shares "u" = Return (Some df) /\
    Pandas.rows df = [row] /\
    Pandas.get df row "Transaction Code" = Some "S" /\
    Pandas.get df row "Number of Shares" = Some "P".
Proof.
  split; [reflexivity |].
  pose proof (form_qc_first_transaction_code Documents.form_code_after_shares "u"
                (Examples.form_head ++
                 [ "<transactionDate>"; "<value>2020-01-02</value>";
                   "</transactionDate>" ])%list
                ("<transactionShares>" :: "<transactionCode>P</transactionCode>" ::
                 tl Examples.form_tail)
                "<transactionCode>S</transactionCode>") as H.
  destruct (_form_qc Documents.form_code_after_shares "u") as [[df |] | e |] eqn:Hrun;
    try (vm_compute in Hrun; discriminate Hrun).
  destruct (H df) as (_ & (row & Hrows & Hcode) & _).
  - vm_compute. reflexivity.
  - repeat (apply List.Forall_cons; [reflexivity |]). apply List.Forall_nil.
  - reflexivity.
  - vm_compute. reflexivity.
  - repeat (apply List.Forall_cons; [reflexivity |]). apply List.Forall_nil.
  - reflexivity.
  - exists df, row. split; [reflexivity |]. split; [exact Hrows |].
    split; [exact Hcode |].
    vm_compute in Hrun. injection Hrun as <-.
    cbn [Pandas.rows] in Hrows. injection Hrows as <-. reflexivity.
Defined.

(** C3, the claim as stated fails.  In [Examples.form_code_after_date]
    the first of the two lines that hold [<transactionCode>] has the
    value [S], yet the record has [P] under [Transaction Code]: the
    first line comes right after the tag of the transaction date and is
    taken as the value of that date. *)
Lemma form_qc_first_code_counterexample :
  Py.count "<transactionCode>" Examples.form_code_after_date = 2 /\
  List.find (Py.contains "<transactionCode>")
            (Py.splitlines Examples.form_code_after_date) =
    Some "<transactionCode>S</transactionCode>" /\
  exists df row,
    _form_qc Examples.form_code_after_date "u" = Return (Some df) /\
    Pandas.rows df = [row] /\
    Pandas.get df row "Transaction Date" = Some "S" /\
    Pandas.get df row "Transaction Code" = Some "P".
Proof.
  split; [reflexivity |]. split; [reflexivity |].
  eexists. eexists. split; [vm_compute; reflexivity |].
  split; [reflexivity |]. split; reflexivity.
Qed.

(** ** The dates when the weekends are kept *)

(** C6, the input on which the code departs from its own docstring.
    With the weekends kept and the holidays asked to be left out, the
    list for Christmas 2020, a Friday and a holiday of the calendar
    [Examples.holidays_2020], holds that day. *)
Theorem date_list_keeps_holiday :
  _date_list_generator Examples.holidays_2020
    (mkdate 2020 12 25) (mkdate 2020 12 25) true false =
    Return [mkdate 2020 12 25] /\
  Examples.holidays_2020 (Some (mkdate 2020 12 25)) (Some (mkdate 2020 12 25)) =
    Return [mkdate 2020 12 25] /\
  Calendar.weekday (mkdate 2020 12 25) = 4%Z.
Proof. repeat split; reflexivity. Qed.

(** ** The dates when the weekends are left out *)

Lemma days_before_next_year (y : Z) :
  Calendar.days_before_year (y + 1) =
  (Calendar.days_before_year y + (if Calendar.is_leap y then 366 else 365))%Z.
Proof.
  unfold Calendar.days_before_year, Calendar.is_leap.
  replace (y + 1 - 1)%Z with y by lia.
  destruct (Z.eqb_spec (y mod 4) 0); destruct (Z.eqb_spec (y mod 100) 0);
    destruct (Z.eqb_spec (y mod 400) 0); simpl; div_lia.
Qed.

(** The day after a date of the calendar is a date of the calendar, and
    its ordinal is the next one. *)
Lemma toordinal_next_day (d : date) :
  Calendar.valid d ->
  Calendar.valid (Calendar.next_day d) /\
  Calendar.toordinal (Calendar.next_day d) = (Calendar.toordinal d + 1)%Z.
Proof.
  destruct d as [y m dd].
  unfold Calendar.valid, Calendar.next_day, Calendar.toordinal.
  cbn [year month day]. intros [Hm Hd].
  assert (Hcases : (m = 1 \/ m = 2 \/ m = 3 \/ m = 4 \/ m = 5 \/ m = 6 \/ m = 7 \/
                    m = 8 \/ m = 9 \/ m = 10 \/ m = 11 \/ m = 12)%Z) by lia.
  pose proof (days_before_next_year y) as Hyear.
  destruct (Calendar.is_leap y) eqn:Hleap;
    destruct Hcases as [-> | [-> | [-> | [-> | [-> | [-> | [-> | [-> | [-> |
                       [-> | [-> | ->]]]]]]]]]]];
    unfold Calendar.days_in_month, Calendar.days_before_month in *;
    cbn in Hd |- *; rewrite ?Hleap in *; cbn in Hd |- *;
    match goal with
    | |- context [(dd <? ?n)%Z] => destruct (Z.ltb_spec dd n)
    end;
    cbn [year month day]; simpl; rewrite ?Hleap; simpl; lia.
Qed.

Lemma days_from_sorted (n : nat) (d : date) :
  Calendar.valid d ->
  StronglySorted date_lt (Calendar.days_from d n) /\
  Forall (fun x => (Calendar.toordinal d <= Calendar.toordinal x <
                    Calendar.toordinal d + Z.of_nat n)%Z)
         (Calendar.days_from d n).
Proof.
  revert d. induction n as [| n IH]; intros d Hd; simpl.
  - split; constructor.
  - destruct (toordinal_next_day d Hd) as [Hnext Hord].
    destruct (IH _ Hnext) as [Hsorted Hall]. rewrite Hord in Hall.
    split.
    + constructor; [exact Hsorted |].
      eapply List.Forall_impl; [| exact Hall]. unfold date_lt. simpl. lia.
    + constructor; [lia |].
      eapply List.Forall_impl; [| exact Hall]. simpl. lia.
Qed.

Lemma StronglySorted_filter_bool {A : Type} (R : A -> A -> Prop)
  (f : A -> bool) (l : list A) :
  StronglySorted R l -> StronglySorted R (List.filter f l).
Proof.
  induction 1 as [| x l Hl IH Hx]; simpl; [constructor |].
  destruct (f x); [| exact IH].
  constructor; [exact IH |].
  apply List.Forall_forall. intros y Hy. apply filter_In in Hy as [Hy _].
  rewrite List.Forall_forall in Hx. now apply Hx.
Qed.

Lemma date_lt_NoDup (l : list date) : StronglySorted date_lt l -> List.NoDup l.
Proof.
  induction 1 as [| x l Hl IH Hx]; constructor; [| exact IH].
  intros Hin. rewrite List.Forall_forall in Hx. specialize (Hx x Hin).
  unfold date_lt in Hx. lia.
Qed.

Lemma unique_from_NoDup (l seen : list date) :
  List.NoDup l -> (forall d, In d l -> ~ In d seen) ->
  Pandas.unique_from seen l = l.
Proof.
  intros Hnd. revert seen. induction Hnd as [| x l Hx Hnd IH]; intros seen Hseen;
    [reflexivity |].
  simpl. rewrite (proj2 (isin_not_In x seen)) by (apply Hseen; now left).
  f_equal. apply IH. intros d Hd [<- | Hin]; [contradiction |].
  apply (Hseen d); [now right | exact Hin].
Qed.

Lemma unique_sorted (l : list date) :
  StronglySorted date_lt l -> Pandas.unique l = l.
Proof.
  intros Hs. apply unique_from_NoDup; [now apply date_lt_NoDup | easy].
Qed.

Section BusinessDays.

Variable holidays_between : option date -> option date -> outcome (list date).

(** X17. The part of C6 that the code keeps.  With the weekends left
    out, a list that [_date_list_generator] returns is strictly
    ascending, hence without repetition, lies between the two dates, and
    holds no Saturday, no Sunday and no holiday of the calendar. *)
Lemma date_list_business_days (start end_ : date) (flag : bool) (l : list date) :
  Calendar.valid start ->
  _date_list_generator holidays_between start end_ false flag = Return l ->
  StronglySorted date_lt l /\
  List.NoDup l /\
  Forall (fun d => Calendar.is_weekend d = false /\
                   (Calendar.toordinal start <= Calendar.toordinal d <=
                    Calendar.toordinal end_)%Z) l /\
  forall hs,
    holidays_between
      (Pandas.index_min (Pandas.bdate_range start end_))
      (Pandas.index_max (Pandas.bdate_range start end_)) = Return hs ->
    Forall (fun d => ~ In d hs) l.
Proof.
  intros Hstart Hrun. unfold _date_list_generator in Hrun. simpl in Hrun.
  destruct (holidays_between _ _) as [hs | e |] eqn:Hhs; try discriminate.
  simpl in Hrun. injection Hrun as <-.
  destruct (days_from_sorted
              (Z.to_nat (Calendar.toordinal end_ - Calendar.toordinal start + 1))
              start Hstart) as [Hsorted Hrange].
  assert (Hs : StronglySorted date_lt
                 (List.filter (fun d => negb (Pandas.isin d hs))
                              (Pandas.bdate_range start end_))).
  { unfold Pandas.bdate_range, Pandas.date_range.
    now do 2 apply StronglySorted_filter_bool. }
  rewrite (unique_sorted _ Hs).
  split; [exact Hs |]. split; [now apply date_lt_NoDup |]. split.
  - apply List.Forall_forall. intros d Hd.
    apply filter_In in Hd as [Hd _]. unfold Pandas.bdate_range in Hd.
    apply filter_In in Hd as [Hd Hweek]. apply negb_true_iff in Hweek.
    split; [exact Hweek |].
    rewrite List.Forall_forall in Hrange. specialize (Hrange d Hd). lia.
  - intros hs' [= <-]. apply List.Forall_forall. intros d Hd.
    apply filter_In in Hd as [_ Hd]. apply negb_true_iff in Hd.
    now apply isin_not_In.
Qed.

(** X18. With the weekends kept, [_date_list_generator] returns all the
    days of the range, in order: the calendar of holidays is not
    consulted, and the result cannot fail. *)
Lemma date_list_all_days (start end_ : date) (flag : bool) :
  Calendar.valid start ->
  _date_list_generator holidays_between start end_ true flag =
    Return (Pandas.date_range start end_) /\
  StronglySorted date_lt (Pandas.date_range start end_).
Proof.
  intros Hstart.
  destruct (days_from_sorted
              (Z.to_nat (Calendar.toordinal end_ - Calendar.toordinal start + 1))
              start Hstart) as [Hsorted _].
  split; [| exact Hsorted].
  change (Return (Pandas.unique (Pandas.date_range start end_)) =
          Return (Pandas.date_range start end_)).
  f_equal. exact (unique_sorted _ Hsorted).
Qed.

End BusinessDays.

(** * Further properties of the code *)

(** ** The retry loop of a fetch *)

Section Retries.

Variable net : list string -> string -> response.

Lemma repeat_shift (url : string) (k : nat) (log : list string) :
  (repeat url k ++ url :: log = url :: repeat url k ++ log)%list.
Proof.
  induction k as [| k IH]; [reflexivity |]. simpl. now rewrite IH.
Qed.

(** X1. After [k] answers with the rate-limit notice and one without it, a
    fetch that may loop more than [k] times returns what the last answer
    gives, having made [k + 1] requests, all of them for its URL; a
    fetch that may loop [k] times or less is still looping. *)
Theorem fetch_retries (url : string) (k : nat) (log : list string) (fuel : nat) :
  Retry.throttled net url log k ->
  Retry.rate_limited (net (repeat url k ++ log)%list url) = false ->
  (k < fuel ->
   _download_one_threaded net fuel url log =
   (Return (Retry.result_of (net (repeat url k ++ log)%list url)),
    (repeat url (S k) ++ log)%list)) /\
  (fuel <= k ->
   _download_one_threaded net fuel url log =
   (OutOfFuel, (repeat url fuel ++ log)%list)).
Proof.
  revert log fuel. induction k as [| k IH]; intros log fuel Hthr Hlast.
  - split.
    + intros Hfuel. destruct fuel as [| fuel]; [lia |].
      cbn [_download_one_threaded repeat app] in *.
      destruct (net log url) as [| body]; [reflexivity |].
      cbn [Retry.rate_limited] in Hlast. rewrite Hlast.
      cbn [Retry.result_of]. now destruct (Py.contains "AccessDenied" body).
    + intros Hfuel. assert (fuel = 0) as -> by lia. reflexivity.
  - destruct Hthr as [Hfirst Hthr].
    assert (Hlast' : Retry.rate_limited (net (repeat url k ++ url :: log)%list url) = false)
      by (now rewrite repeat_shift).
    destruct (IH (url :: log) (pred fuel) Hthr Hlast') as [Hret Hout].
    split.
    + intros Hfuel. destruct fuel as [| fuel]; [lia |]. simpl pred in *.
      cbn [_download_one_threaded].
      destruct (net log url) as [| body]; [discriminate |].
      cbn [Retry.rate_limited] in Hfirst. rewrite Hfirst.
      rewrite Hret by lia. now rewrite !repeat_shift.
    + intros Hfuel. destruct fuel as [| fuel]; [reflexivity |]. simpl pred in *.
      cbn [_download_one_threaded].
      destruct (net log url) as [| body]; [discriminate |].
      cbn [Retry.rate_limited] in Hfirst. rewrite Hfirst.
      rewrite Hout by lia. now rewrite repeat_shift.
Qed.

(** X2. There is no cap on the retries: when every answer to a URL carries
    the rate-limit notice, the fetch has not returned after any number
    of iterations, and has made one request in each. *)
Theorem fetch_never_gives_up (url : string) :
  (forall log, Retry.rate_limited (net log url) = true) ->
  forall fuel log,
    _download_one_threaded net fuel url log =
    (OutOfFuel, (repeat url fuel ++ log)%list).
Proof.
  intros Hall fuel. induction fuel as [| fuel IH]; intros log; [reflexivity |].
  cbn [_download_one_threaded]. specialize (Hall log).
  destruct (net log url) as [| body]; [discriminate |].
  cbn [Retry.rate_limited] in Hall. rewrite Hall, IH. now rewrite repeat_shift.
Qed.

(** X3. On a network that never answers with the rate-limit notice, a
    batch returns after exactly one request for each URL, and its result
    at each position is what an answer to the URL at that position
    gives.  Nothing is said of the order of the requests, which the pool
    is free to choose. *)
Theorem batch_one_request_each (fuel : nat) (urls : list string) (log : list string) :
  (forall l u, Retry.rate_limited (net l u) = false) ->
  exists results log',
    _download_thread net (S fuel) urls log =
      (Return (keep_results results urls), log') /\
    Permutation log' (urls ++ log)%list /\
    length results = length urls /\
    forall i u, urls !! i = Some u ->
      exists l, results !! i = Some (Retry.result_of (net l u)).
Proof.
  intros Hplain.
  assert (Hone : forall u l,
             _download_one_threaded net (S fuel) u l =
             (Return (Retry.result_of (net l u)), u :: l)).
  { intros u l. specialize (Hplain l u). cbn [_download_one_threaded].
    destruct (net l u) as [| body]; [reflexivity |].
    cbn [Retry.rate_limited] in Hplain. rewrite Hplain. cbn [Retry.result_of].
    now destruct (Py.contains "AccessDenied" body). }
  assert (Hbatch : exists results,
             for_each_M (_download_one_threaded net (S fuel)) urls log =
               (Return results, (rev urls ++ log)%list) /\
             length results = length urls /\
             forall i u, urls !! i = Some u ->
               exists l, results !! i = Some (Retry.result_of (net l u))).
  { revert log. induction urls as [| url urls IH]; intros log.
    - exists []. split; [reflexivity |]. split; [reflexivity |].
      intros i u Hu. now rewrite lookup_nil in Hu.
    - destruct (IH (url :: log)) as (results & Hrun & Hlen & Hres).
      exists (Retry.result_of (net log url) :: results).
      split; [| split].
      + cbn [for_each_M]. unfold bind. rewrite Hone, Hrun. unfold ret.
        simpl. now rewrite <- app_assoc.
      + simpl. now rewrite Hlen.
      + intros [| i] u Hu; simpl in Hu.
        * injection Hu as <-. now exists log.
        * exact (Hres i u Hu). }
  destruct Hbatch as (results & Hrun & Hlen & Hres).
  exists results, (rev urls ++ log)%list.
  split; [| split; [| split; assumption]].
  - unfold _download_thread, bind. now rewrite Hrun.
  - apply Permutation_app_tail. symmetry. apply Permutation_rev.
Qed.

End Retries.

(** The first answer of [Examples.net_throttled] has the notice and the
    second has not: two requests with fuel, none returned without. *)
Lemma fetch_retries_witness :
  Retry.throttled Examples.net_throttled "u" [] 1 /\
  _download_one_threaded Examples.net_throttled 5 "u" [] =
    (Return (Some "plain text"), ["u"; "u"]) /\
  _download_one_threaded Examples.net_throttled 1 "u" [] = (OutOfFuel, ["u"]).
Proof.
  assert (Hthr : Retry.throttled Examples.net_throttled "u" [] 1)
    by (split; [reflexivity | exact I]).
  split; [exact Hthr |].
  split.
  - exact (proj1 (fetch_retries Examples.net_throttled "u" 1 [] 5 Hthr eq_refl)
                 ltac:(lia)).
  - exact (proj2 (fetch_retries Examples.net_throttled "u" 1 [] 1 Hthr eq_refl)
                 ltac:(lia)).
Defined.

(** A host that answers every request with its rate-limit notice. *)
Lemma fetch_never_gives_up_witness :
  _download_one_threaded
    (Examples.net_const "Request Rate Threshold Exceeded") 3 "u" [] =
  (OutOfFuel, ["u"; "u"; "u"]).
Proof.
  exact (fetch_never_gives_up
           (Examples.net_const "Request Rate Threshold Exceeded") "u"
           (fun _ => eq_refl) 3 []).
Defined.

(** On [Networks.net_mixed] no answer has the notice: three URLs, three
    requests. *)
Lemma batch_one_request_each_witness :
  exists results log',
    _download_thread Networks.net_mixed 1 ["a"; "b"; "c"] [] =
      (Return (keep_results results ["a"; "b"; "c"]), log') /\
    Permutation log' ["a"; "b"; "c"] /\
    length results = 3.
Proof.
  destruct (batch_one_request_each Networks.net_mixed 0 ["a"; "b"; "c"] [])
    as (results & log' & Hrun & Hperm & Hlen & _).
  - intros l u. unfold Networks.net_mixed.
    destruct (String.eqb u "a"); [reflexivity |].
    destruct (String.eqb u "b"); [reflexivity |].
    destruct (String.eqb u "c"); reflexivity.
  - exists results, log'. split; [exact Hrun |]. split; [| exact Hlen].
    simpl in Hperm. exact Hperm.
Defined.

(** ** What [_form_qc] can return *)

Lemma forallb_false_witness {A : Type} (p : A -> bool) (l : list A) :
  forallb p l = false -> exists x, In x l /\ p x = false.
Proof.
  induction l as [| a l IH]; simpl; [discriminate |].
  destruct (p a) eqn:Ha; simpl.
  - intros H. destruct (IH H) as (x & Hx & Hpx). exists x. split; [now right | exact Hpx].
  - intros _. exists a. split; [now left | exact Ha].
Qed.

(** The columns of the dictionary, in the order of the keys. *)
Abbreviation columns_of d :=
  (map (fun k : string => default [] (d !! k)) datadict_keys).

(** With one value under ["URL"], the table of a dictionary is a single
    row when every column has one value, and an error otherwise. *)
Lemma DataFrame_of_dict_scan (d : gmap string (list string)) (u : string) :
  d !! "URL" = Some [u] ->
  Pandas.DataFrame_of_dict datadict_keys d =
  if forallb (fun c => Nat.eqb (length c) 1) (columns_of d)
  then Return (Pandas.mkframe datadict_keys
                 [map (fun c : list string => c !! 0) (columns_of d)])
  else Raise ValueError.
Proof.
  intros Hu. unfold Pandas.DataFrame_of_dict.
  cbn [datadict_keys map]. rewrite !Hu. reflexivity.
Qed.

Lemma scan_start_state (url : string) :
  scan_start url =
  Return (mkstate (<["URL" := [url]]> datadict_init) false None).
Proof. reflexivity. Qed.

(** The scan of the lines of a document, from its start: it returns, in
    a state of the invariant that has the URL under ["URL"]. *)
Lemma scan_document (url : string) (lines : list string) :
  exists st0 st,
    scan_start url = Return st0 /\
    scan lines st0 = Return st /\
    Scan.invariant st /\
    datadict st !! "URL" = Some [url].
Proof.
  destruct (scan_start_invariant url) as (st0 & Hstart & Hinv0 & _).
  destruct (scan_invariant lines st0 Hinv0) as (st & Hrun & Hinv).
  exists st0, st. split; [exact Hstart |]. split; [exact Hrun |].
  split; [exact Hinv |].
  apply (scan_preserves (fun s => datadict s !! "URL" = Some [url]) lines st0 st);
    [exact Hinv0 | | | exact Hrun].
  - rewrite scan_start_state in Hstart.
    assert (Hst0 : st0 = mkstate (<["URL" := [url]]> datadict_init) false None)
      by congruence.
    rewrite Hst0. reflexivity.
  - intros l s s' _ _ Hs Hstep. exact (line_step_filled_kept l s s' _ _ Hs Hstep).
Qed.

(** X4. [_form_qc] has three outcomes and no other: nothing, for a document
    that is not qualified; a [ValueError], for a qualified document in
    which a field found no value; and a table of the 17 columns with one
    row, whose first cell is the URL and none of whose cells is missing.
    In particular it never raises a [KeyError]: the label ['ERROR'] is
    never used as a key. *)
Theorem form_qc_outcomes (formtext url : string) :
  (qualifies formtext = false /\ _form_qc formtext url = Return None) \/
  (qualifies formtext = true /\ _form_qc formtext url = Raise ValueError) \/
  (qualifies formtext = true /\
   exists row,
     _form_qc formtext url = Return (Some (Pandas.mkframe datadict_keys [row])) /\
     length row = 17 /\
     row !! 0 = Some (Some url) /\
     Forall (fun c : Pandas.cell => c <> None) row).
Proof.
  unfold _form_qc. destruct (qualifies formtext); [right | now left].
  destruct (scan_document url (Py.filter_None (Py.splitlines formtext)))
    as (st0 & st & Hstart & Hrun & Hinv & Hurl).
  rewrite Hstart. cbn [obind]. rewrite Hrun. cbn [obind].
  rewrite (DataFrame_of_dict_scan _ _ Hurl).
  destruct (forallb _ (columns_of (datadict st))) eqn:Hall; cbn [obind];
    [right | left; split; reflexivity].
  split; [reflexivity |]. eexists. split; [reflexivity |].
  split; [now rewrite !length_map |]. split.
  - cbn [datadict_keys map]. rewrite Hurl. reflexivity.
  - rewrite forallb_forall in Hall. apply List.Forall_forall.
    intros c Hc. apply in_map_iff in Hc as (col & <- & Hcol).
    specialize (Hall col Hcol). apply Nat.eqb_eq in Hall.
    destruct col as [| v col]; [discriminate | discriminate].
Qed.

(** X5. A qualified document raises the [ValueError] exactly when the scan
    leaves a key without a value. *)
Theorem form_qc_value_error (formtext url : string) (st0 st : scan_state) :
  qualifies formtext = true ->
  scan_start url = Return st0 ->
  scan (Py.filter_None (Py.splitlines formtext)) st0 = Return st ->
  (_form_qc formtext url = Raise ValueError <->
   exists k, In k datadict_keys /\ datadict st !! k = Some []).
Proof.
  intros Hq Hstart Hrun.
  destruct (scan_document url (Py.filter_None (Py.splitlines formtext)))
    as (st0' & st' & Hstart' & Hrun' & Hinv & Hurl).
  rewrite Hstart in Hstart'. injection Hstart' as <-.
  rewrite Hrun in Hrun'. injection Hrun' as <-.
  unfold _form_qc. rewrite Hq, Hstart. cbn [obind]. rewrite Hrun. cbn [obind].
  rewrite (DataFrame_of_dict_scan _ _ Hurl).
  destruct (forallb _ (columns_of (datadict st))) eqn:Hall; cbn [obind].
  - split; [discriminate |]. intros (k & Hk & Hempty).
    rewrite forallb_forall in Hall.
    assert (Hin : In (default [] (datadict st !! k)) (columns_of (datadict st)))
      by (apply in_map_iff; exists k; split; [reflexivity | exact Hk]).
    specialize (Hall _ Hin). rewrite Hempty in Hall. discriminate Hall.
  - split; [| reflexivity]. intros _.
    apply forallb_false_witness in Hall as (c & Hc & Hlen).
    apply in_map_iff in Hc as (k & <- & Hk). exists k. split; [exact Hk |].
    destruct (Scan.inv_keys _ Hinv k Hk) as (l & Hl & Hle).
    rewrite Hl in Hlen |- *. simpl in Hlen.
    destruct l as [| v [| w l]]; [reflexivity | discriminate | simpl in Hle; lia].
Qed.

(** A text without a line boundary is its own single line. *)
Lemma splitlines_one_line (s : string) :
  Text.one_line s = true -> s <> EmptyString -> Py.splitlines s = [s].
Proof.
  induction s as [| c s IH]; intros Hs Hne; [contradiction |].
  simpl in Hs. apply andb_true_iff in Hs as [Hc Hs].
  apply negb_true_iff in Hc.
  assert (Hcr : Py.is_cr c = false).
  { destruct (Py.is_cr c) eqn:E; [| reflexivity].
    apply is_cr_linebreak in E. congruence. }
  cbn -[Py.is_cr Py.is_linebreak Py.is_lf]. rewrite Hcr, Hc.
  destruct s as [| c' s]; [reflexivity |].
  rewrite (IH Hs) by discriminate. reflexivity.
Qed.

(** X6. A qualified document without any line break, as a file written on
    one line is, yields no record: its one line is taken by the first
    test of the chain, every other field stays without a value, and
    [_form_qc] raises a [ValueError]. *)
Theorem form_qc_single_line (formtext url : string) :
  qualifies formtext = true ->
  Text.one_line formtext = true ->
  _form_qc formtext url = Raise ValueError.
Proof.
  intros Hq Hline.
  assert (Hne : formtext <> EmptyString).
  { intros ->. vm_compute in Hq. discriminate Hq. }
  assert (Hperiod : Py.contains "<periodOfReport>" formtext = true).
  { unfold qualifies in Hq. apply andb_true_iff in Hq as [_ Hq].
    cbn [searchlist forallb] in Hq. now apply andb_true_iff in Hq as [Hq _]. }
  assert (Hlines : Py.filter_None (Py.splitlines formtext) = [formtext]).
  { rewrite (splitlines_one_line _ Hline Hne). unfold Py.filter_None. simpl.
    destruct formtext; [contradiction | reflexivity]. }
  set (d0 := <["URL" := [url]]> datadict_init).
  assert (Hrun : scan (Py.filter_None (Py.splitlines formtext))
                      (mkstate d0 false None) =
                 Return (mkstate (<["Date" := [line_value formtext]]> d0) false None)).
  { rewrite Hlines. cbn [scan]. unfold scan_line. cbn [nextline].
    change chain with (("<periodOfReport>", "Date", SameLine) ::
                       Scan.tests_from "Issuer CIK" chain).
    cbn [scan_chain]. rewrite Hperiod. reflexivity. }
  unfold _form_qc. rewrite Hq, scan_start_state. cbn [obind].
  fold d0. rewrite Hrun. cbn [obind datadict].
  generalize (line_value formtext). intros v. subst d0.
  vm_compute. reflexivity.
Qed.

(** [Documents.form_flat] has every tag of [Examples.form_one] and no
    line break. *)
Lemma form_qc_single_line_witness :
  qualifies Documents.form_flat = true /\
  Text.one_line Documents.form_flat = true /\
  _form_qc Documents.form_flat "u" = Raise ValueError.
Proof.
  assert (Hq : qualifies Documents.form_flat = true) by (vm_compute; reflexivity).
  assert (Hl : Text.one_line Documents.form_flat = true) by (vm_compute; reflexivity).
  split; [exact Hq |]. split; [exact Hl |].
  exact (form_qc_single_line Documents.form_flat "u" Hq Hl).
Defined.

(** The scan of [Documents.form_flat] ends with keys that have no value. *)
Lemma form_qc_value_error_witness :
  exists st,
    qualifies Documents.form_flat = true /\
    scan (Py.filter_None (Py.splitlines Documents.form_flat))
         (mkstate (<["URL" := ["u"]]> datadict_init) false None) = Return st /\
    (_form_qc Documents.form_flat "u" = Raise ValueError <->
     exists k, In k datadict_keys /\ datadict st !! k = Some []).
Proof.
  assert (Hq : qualifies Documents.form_flat = true) by (vm_compute; reflexivity).
  destruct (scan (Py.filter_None (Py.splitlines Documents.form_flat))
                 (mkstate (<["URL" := ["u"]]> datadict_init) false None))
    as [st | e |] eqn:Hrun; try (vm_compute in Hrun; discriminate Hrun).
  exists st. split; [exact Hq |]. split; [reflexivity |].
  exact (form_qc_value_error Documents.form_flat "u" _ st Hq
           (scan_start_state "u") Hrun).
Defined.

(** ** The index parser on short, blank and ragged lines *)

Lemma max_list_ge (n : nat) (ns : list nat) : In n ns -> n <= max_list ns.
Proof.
  induction ns as [| m ns IH]; simpl; [tauto |].
  intros [-> | H]; [lia | specialize (IH H); lia].
Qed.

Lemma max_list_gt (b : nat) (ns : list nat) :
  b < max_list ns -> exists n, In n ns /\ b < n.
Proof.
  induction ns as [| m ns IH]; simpl; [lia |]. intros H.
  destruct (Nat.lt_ge_cases b m) as [Hm | Hm].
  - exists m. split; [now left | exact Hm].
  - destruct IH as (n & Hn & Hlt); [lia |]. exists n. split; [now right | exact Hlt].
Qed.

(** The width of the table that [pd.DataFrame] gets from the rows. *)
Abbreviation idx_width idx_url lines :=
  (max_list (map length (map (idx_row idx_url) lines))).

Lemma idx_row_length (idx_url line : string) :
  length (idx_row idx_url line) = S (length (idx_tokens line)).
Proof. unfold idx_row. rewrite length_app. simpl. lia. Qed.

Lemma DataFrame_of_rows_cons (data : list (list string)) (cols : list string) :
  data <> [] ->
  Pandas.DataFrame_of_rows data cols =
  if Nat.eqb (max_list (map length data)) (length cols)
  then Return (Pandas.mkframe cols
                 (map (fun r => Pandas.pad (max_list (map length data)) (map Some r))
                      data))
  else Raise ValueError.
Proof. destruct data; [contradiction | reflexivity]. Qed.

(** What [_idx_to_dataframe] returns, when it returns. *)
Lemma idx_to_dataframe_return (idx idx_url : string) (df : Pandas.DataFrame) :
  _idx_to_dataframe idx idx_url = Return df ->
  df = Pandas.mkframe idx_columns
         (map (fun line => Pandas.pad 6 (map Some (idx_row idx_url line)))
              (skipn 11 (Py.splitlines idx))) /\
  (skipn 11 (Py.splitlines idx) <> [] ->
   idx_width idx_url (skipn 11 (Py.splitlines idx)) = 6).
Proof.
  unfold _idx_to_dataframe.
  destruct (skipn 11 (Py.splitlines idx)) as [| line lines].
  - intros [= <-]. split; [reflexivity | congruence].
  - rewrite DataFrame_of_rows_cons by discriminate.
    destruct (Nat.eqb_spec (idx_width idx_url (line :: lines)) (length idx_columns))
      as [Hw | Hw]; [| discriminate].
    rewrite Hw. intros [= <-]. split; [| intros _; reflexivity].
    rewrite map_map. reflexivity.
Qed.

(** X8. Every line after the eleventh gives a row, a blank line too.  When
    [_idx_to_dataframe] returns, its table has the six columns and one
    row for each of these lines, in their order; no line has more than
    five tokens, and the row of a line holds its tokens, then the URL of
    the index, then missing values up to the sixth column.  So a line
    with fewer than five tokens has the URL under a column of the index
    and nothing under [idx_name]. *)
Theorem idx_rows_padded (idx idx_url : string) (df : Pandas.DataFrame) :
  _idx_to_dataframe idx idx_url = Return df ->
  Pandas.columns df = idx_columns /\
  length (Pandas.rows df) = length (Py.splitlines idx) - 11 /\
  forall i line,
    skipn 11 (Py.splitlines idx) !! i = Some line ->
    length (idx_tokens line) <= 5 /\
    Pandas.rows df !! i =
      Some (map Some (idx_tokens line) ++
            Some idx_url :: repeat None (5 - length (idx_tokens line)))%list.
Proof.
  intros H. apply idx_to_dataframe_return in H as [-> Hw].
  split; [reflexivity |]. split.
  - cbn [Pandas.rows]. now rewrite length_map, length_skipn.
  - intros i line Hline.
    assert (Hle : length (idx_tokens line) <= 5).
    { assert (Hne : skipn 11 (Py.splitlines idx) <> [])
        by (intros E; rewrite E in Hline; now rewrite lookup_nil in Hline).
      specialize (Hw Hne).
      assert (Hin : In (length (idx_row idx_url line))
                       (map length (map (idx_row idx_url) (skipn 11 (Py.splitlines idx))))).
      { apply in_map, in_map. apply list_elem_of_In.
        now apply list_elem_of_lookup_2 in Hline. }
      apply max_list_ge in Hin. rewrite Hw, idx_row_length in Hin. lia. }
    split; [exact Hle |].
    cbn [Pandas.rows]. rewrite list_lookup_fmap, Hline. cbn [fmap option_fmap option_map].
    f_equal. unfold Pandas.pad, idx_row.
    rewrite map_app, length_app, !length_map, <- app_assoc. cbn [map app length].
    f_equal. f_equal.
    replace (6 - (length (idx_tokens line) + 1)) with (5 - length (idx_tokens line)) by lia.
    reflexivity.
Qed.

(** [Documents.idx_short_row]: the second row has four tokens and the URL
    in the column [file_name]; the blank line gives a row of its own. *)
Lemma idx_rows_padded_witness :
  exists df,
    _idx_to_dataframe Documents.idx_short_row "u" = Return df /\
    Pandas.columns df = idx_columns /\
    length (Pandas.rows df) = 3 /\
    Pandas.rows df !! 1 =
      Some [ Some "A VERY LONG COMPANY NAME THAT FILLS ITS COLUMN  10-K";
             Some "1234"; Some "20200102";
             Some "edgar/data/1234/0001234-20-000007.txt"; Some "u"; None ] /\
    Pandas.rows df !! 2 = Some [ Some "u"; None; None; None; None; None ].
Proof.
  destruct (_idx_to_dataframe Documents.idx_short_row "u") as [df | e |] eqn:Hrun;
    try (vm_compute in Hrun; discriminate Hrun).
  exists df. split; [reflexivity |].
  destruct (idx_rows_padded Documents.idx_short_row "u" df Hrun) as (Hcols & Hlen & Hrows).
  split; [exact Hcols |]. split; [rewrite Hlen; vm_compute; reflexivity |].
  split.
  - destruct (Hrows 1 "A VERY LONG COMPANY NAME THAT FILLS ITS COLUMN  10-K        1234        20200102    edgar/data/1234/0001234-20-000007.txt")
      as [_ ->]; vm_compute; reflexivity.
  - destruct (Hrows 2 " ") as [_ ->]; vm_compute; reflexivity.
Defined.

Lemma idx_width_In (idx_url : string) (lines : list string) (n : nat) :
  In n (map length (map (idx_row idx_url) lines)) ->
  exists line, In line lines /\ n = S (length (idx_tokens line)).
Proof.
  rewrite map_map. intros H. apply in_map_iff in H as (line & <- & Hline).
  exists line. split; [exact Hline | apply idx_row_length].
Qed.

Lemma idx_width_ge (idx_url : string) (lines : list string) (line : string) :
  In line lines -> S (length (idx_tokens line)) <= idx_width idx_url lines.
Proof.
  intros H. rewrite <- (idx_row_length idx_url). apply max_list_ge.
  now apply in_map, in_map.
Qed.

(** X9. [_idx_to_dataframe] never raises anything but a [ValueError], and
    raises it in two cases and no other: a line after the eleventh has
    more than five tokens, or there are such lines and none of them has
    five tokens. *)
Theorem idx_value_error (idx idx_url : string) :
  (forall e, _idx_to_dataframe idx idx_url = Raise e -> e = ValueError) /\
  _idx_to_dataframe idx idx_url <> OutOfFuel /\
  (_idx_to_dataframe idx idx_url = Raise ValueError <->
   (exists line, In line (skipn 11 (Py.splitlines idx)) /\
                 5 < length (idx_tokens line)) \/
   (skipn 11 (Py.splitlines idx) <> [] /\
    forall line, In line (skipn 11 (Py.splitlines idx)) ->
                 length (idx_tokens line) < 5)).
Proof.
  unfold _idx_to_dataframe.
  destruct (skipn 11 (Py.splitlines idx)) as [| line lines].
  - cbn [map Pandas.DataFrame_of_rows]. split; [discriminate |]. split; [discriminate |].
    split; [discriminate |]. intros [(l & [] & _) | [Hne _]]. now destruct Hne.
  - rewrite DataFrame_of_rows_cons by discriminate.
    change (length idx_columns) with 6.
    set (rows := line :: lines).
    destruct (Nat.eqb_spec (idx_width idx_url rows) 6) as [Hw | Hw].
    + split; [discriminate |]. split; [discriminate |].
      split; [discriminate |]. intros [(l & Hl & Hlong) | [_ Hshort]].
      * apply (idx_width_ge idx_url) in Hl. lia.
      * destruct (max_list_gt 5 (map length (map (idx_row idx_url) rows)))
          as (n & Hn & Hlt); [lia |].
        apply idx_width_In in Hn as (l & Hl & ->).
        specialize (Hshort l Hl). lia.
    + split; [now intros e [= <-] |]. split; [discriminate |].
      split; [intros _ | reflexivity].
      destruct (Nat.lt_ge_cases 6 (idx_width idx_url rows)) as [Hgt | Hle].
      * left. apply max_list_gt in Hgt as (n & Hn & Hlt).
        apply idx_width_In in Hn as (l & Hl & ->).
        exists l. split; [exact Hl | lia].
      * right. split; [discriminate |]. intros l Hl.
        apply (idx_width_ge idx_url) in Hl. lia.
Qed.

(** A name cut by three spaces makes six tokens of the second row of
    [Documents.idx_long_row], and the whole index is lost. *)
Lemma idx_value_error_witness :
  _idx_to_dataframe Documents.idx_long_row "u" = Raise ValueError.
Proof.
  apply (proj2 (proj2 (idx_value_error Documents.idx_long_row "u"))).
  left.
  exists "ZYX   CORP     10-K        1234        20200102    edgar/data/1234/0001234-20-000007.txt".
  split; [vm_compute; tauto | vm_compute; lia].
Defined.

(** ** The cleaning step: missing columns, and a second cleaning *)

Lemma index_of_In (col : string) (cols : list string) :
  In col cols -> exists j, Pandas.index_of col cols = Some j.
Proof.
  induction cols as [| c cs IH]; simpl; [tauto |]. intros H.
  destruct (String.eqb_spec c col) as [-> | Hne]; [now exists 0 |].
  destruct H as [-> | H]; [contradiction |].
  destruct (IH H) as (j & ->). now exists (S j).
Qed.

Lemma index_of_lookup (col : string) (cols : list string) (j : nat) :
  Pandas.index_of col cols = Some j -> cols !! j = Some col.
Proof.
  revert j. induction cols as [| c cs IH]; intros j; simpl; [discriminate |].
  destruct (String.eqb_spec c col) as [-> | Hne].
  - now intros [= <-].
  - destruct (Pandas.index_of col cs) as [i |]; [| discriminate].
    intros [= <-]. simpl. now apply IH.
Qed.

Lemma index_of_not_In (col : string) (cols : list string) :
  Pandas.index_of col cols = None -> ~ In col cols.
Proof.
  intros Hnone Hin. apply index_of_In in Hin as (j & Hj). congruence.
Qed.

Lemma index_of_Some_In (col : string) (cols : list string) (j : nat) :
  Pandas.index_of col cols = Some j -> In col cols.
Proof.
  intros H. apply index_of_lookup in H. apply list_elem_of_In.
  now apply list_elem_of_lookup_2 in H.
Qed.

(** X10. [_clean_download] fails only for a column that is not there, with the
    [KeyError] of that column, [Director] first; otherwise it returns a
    table with the columns and the number of rows of its argument. *)
Theorem clean_download_key_error (df : Pandas.DataFrame) :
  match _clean_download df with
  | Return df' =>
      In "Director" (Pandas.columns df) /\
      In "Officer" (Pandas.columns df) /\
      Pandas.columns df' = Pandas.columns df /\
      length (Pandas.rows df') = length (Pandas.rows df)
  | Raise e =>
      (e = KeyError (Some "Director") /\ ~ In "Director" (Pandas.columns df)) \/
      (e = KeyError (Some "Officer") /\ In "Director" (Pandas.columns df) /\
       ~ In "Officer" (Pandas.columns df))
  | OutOfFuel => False
  end.
Proof.
  unfold _clean_download, Pandas.replace.
  destruct (Pandas.index_of "Director" (Pandas.columns df)) as [jd |] eqn:Hd;
    cbn [obind Pandas.columns Pandas.rows].
  - destruct (Pandas.index_of "Officer" (Pandas.columns df)) as [jo |] eqn:Ho.
    + split; [exact (index_of_Some_In _ _ _ Hd) |].
      split; [exact (index_of_Some_In _ _ _ Ho) |].
      split; [reflexivity |]. cbn [Pandas.rows]. now rewrite !length_map.
    + right. split; [reflexivity |].
      split; [exact (index_of_Some_In _ _ _ Hd) | exact (index_of_not_In _ _ Ho)].
  - left. split; [reflexivity | exact (index_of_not_In _ _ Hd)].
Qed.

Lemma clean_download_rows (df df' : Pandas.DataFrame) :
  _clean_download df = Return df' ->
  exists jd jo,
    Pandas.index_of "Director" (Pandas.columns df) = Some jd /\
    Pandas.index_of "Officer" (Pandas.columns df) = Some jo /\
    df' = Pandas.mkframe (Pandas.columns df)
            (map (imap (cleaned jd jo)) (Pandas.rows df)).
Proof.
  unfold _clean_download, Pandas.replace.
  destruct (Pandas.index_of "Director" (Pandas.columns df)) as [jd |];
    cbn [obind Pandas.columns Pandas.rows]; [| discriminate].
  destruct (Pandas.index_of "Officer" (Pandas.columns df)) as [jo |];
    [| discriminate].
  intros [= <-]. exists jd, jo. split; [reflexivity |]. split; [reflexivity |].
  f_equal. rewrite map_map. apply map_ext. intros r.
  rewrite !alter_imap, imap_compose. apply imap_ext. intros i c _.
  unfold cleaned. now destruct (Nat.eqb i jd), (Nat.eqb i jo).
Qed.

Lemma replace_value_other (v : string) :
  v <> "0" -> v <> "1" ->
  Pandas.replace_value bool_words (Some v) = Some v.
Proof.
  intros H0 H1. unfold Pandas.replace_value, bool_words. cbn [find fst snd].
  destruct (String.eqb_spec "0" v) as [E | _]; [now destruct H0 |].
  destruct (String.eqb_spec "1" v) as [E | _]; [now destruct H1 |].
  reflexivity.
Qed.

Lemma replace_value_idem (c : Pandas.cell) :
  Pandas.replace_value bool_words (Pandas.replace_value bool_words c) =
  Pandas.replace_value bool_words c.
Proof.
  destruct c as [v |]; [| reflexivity].
  destruct (String.eqb_spec v "0") as [-> | H0]; [reflexivity |].
  destruct (String.eqb_spec v "1") as [-> | H1]; [reflexivity |].
  now rewrite !(replace_value_other v H0 H1).
Qed.

Lemma replace_value_not_digit (c : Pandas.cell) :
  Pandas.replace_value bool_words c <> Some "0" /\
  Pandas.replace_value bool_words c <> Some "1".
Proof.
  destruct c as [v |]; [| split; discriminate].
  destruct (String.eqb_spec v "0") as [-> | H0]; [split; discriminate |].
  destruct (String.eqb_spec v "1") as [-> | H1]; [split; discriminate |].
  rewrite (replace_value_other v H0 H1). split; congruence.
Qed.

Lemma replace_value_Some (c : Pandas.cell) :
  c <> None -> Pandas.replace_value bool_words c <> None.
Proof.
  destruct c as [v |]; [intros _ | congruence].
  unfold Pandas.replace_value. now destruct (find _ bool_words).
Qed.

Lemma cleaned_Some (jd jo i : nat) (c : Pandas.cell) :
  c <> None -> cleaned jd jo i c <> None.
Proof.
  intros H. unfold cleaned. destruct (Nat.eqb i jd), (Nat.eqb i jo); unfold id;
    auto using replace_value_Some.
Qed.

Lemma cleaned_not_digit (jd jo i : nat) (c : Pandas.cell) :
  i = jd \/ i = jo ->
  cleaned jd jo i c <> Some "0" /\ cleaned jd jo i c <> Some "1".
Proof.
  intros H. unfold cleaned.
  destruct (Nat.eqb_spec i jd) as [Hd | Hd], (Nat.eqb_spec i jo) as [Ho | Ho];
    unfold id; try apply replace_value_not_digit.
  destruct H; contradiction.
Qed.

Lemma get_cleaned (df : Pandas.DataFrame) (jd jo j : nat) (col : string)
  (r : list Pandas.cell) :
  Pandas.index_of col (Pandas.columns df) = Some j ->
  Pandas.get (Pandas.mkframe (Pandas.columns df)
                (map (imap (cleaned jd jo)) (Pandas.rows df)))
             (imap (cleaned jd jo) r) col =
  match r !! j with
  | Some c => cleaned jd jo j c
  | None => None
  end.
Proof.
  intros Hj. unfold Pandas.get. cbn [Pandas.columns]. rewrite Hj.
  rewrite list_lookup_imap. now destruct (r !! j).
Qed.

(** X11. What [_clean_download] returns has no ["0"] and no ["1"] left under
    [Director] and [Officer], and a second cleaning returns it as it
    is. *)
Theorem clean_download_idempotent (df df' : Pandas.DataFrame) :
  _clean_download df = Return df' ->
  _clean_download df' = Return df' /\
  forall r col,
    In r (Pandas.rows df') -> col = "Director" \/ col = "Officer" ->
    Pandas.get df' r col <> Some "0" /\ Pandas.get df' r col <> Some "1".
Proof.
  intros H. destruct (clean_download_rows df df' H) as (jd & jo & Hd & Ho & ->).
  split.
  - unfold _clean_download, Pandas.replace. cbn [Pandas.columns Pandas.rows].
    rewrite Hd. cbn [obind Pandas.columns Pandas.rows]. rewrite Ho.
    f_equal. f_equal. rewrite !map_map. apply map_ext. intros r.
    rewrite !alter_imap, !imap_compose. apply imap_ext. intros i c _.
    unfold cleaned. destruct (Nat.eqb i jd), (Nat.eqb i jo); unfold id;
      now rewrite ?replace_value_idem.
  - intros r col Hr Hcol. cbn [Pandas.rows] in Hr.
    apply in_map_iff in Hr as (r0 & <- & _).
    destruct Hcol as [-> | ->].
    + rewrite (get_cleaned df jd jo jd "Director" r0 Hd).
      destruct (r0 !! jd); [| split; discriminate].
      apply cleaned_not_digit. now left.
    + rewrite (get_cleaned df jd jo jo "Officer" r0 Ho).
      destruct (r0 !! jo); [| split; discriminate].
      apply cleaned_not_digit. now right.
Qed.

(** [Examples.flags_table], cleaned once and cleaned again. *)
Lemma clean_download_idempotent_witness :
  exists df',
    _clean_download Examples.flags_table = Return df' /\
    _clean_download df' = Return df' /\
    Pandas.rows df' !! 0 = Some [Some "0"; Some "true"; Some "false"; Some "1"].
Proof.
  destruct (_clean_download Examples.flags_table) as [df' | e |] eqn:Hrun;
    try (vm_compute in Hrun; discriminate Hrun).
  exists df'. split; [reflexivity |].
  split; [exact (proj1 (clean_download_idempotent Examples.flags_table df' Hrun)) |].
  vm_compute in Hrun. injection Hrun as <-. reflexivity.
Defined.

(** ** The table that [download] returns *)

Lemma for_each_Forall {A B : Type} (f : A -> outcome B) (P : B -> Prop)
  (xs : list A) (ys : list B) :
  (forall x y, f x = Return y -> P y) ->
  for_each f xs = Return ys -> Forall P ys.
Proof.
  intros Hf. revert ys. induction xs as [| x xs IH]; intros ys H; simpl in H.
  - injection H as <-. constructor.
  - destruct (f x) as [y | |] eqn:Hy; simpl in H; try discriminate.
    destruct (for_each f xs) as [ys' | |]; simpl in H; try discriminate.
    injection H as <-. constructor; [exact (Hf x y Hy) | now apply IH].
Qed.

Lemma filter_seen (acc l : list string) :
  incl l acc ->
  List.filter (fun c => negb (existsb (String.eqb c) acc)) l = [].
Proof.
  induction l as [| c l IH]; intros H; [reflexivity |]. simpl.
  assert (Hc : existsb (String.eqb c) acc = true).
  { apply existsb_exists. exists c. split; [apply H; now left | apply String.eqb_refl]. }
  rewrite Hc. simpl. apply IH. intros x Hx. apply H. now right.
Qed.

(** Appending tables that have the columns of the first adds no
    column. *)
Lemma append_columns_same (df : Pandas.DataFrame) (others : list Pandas.DataFrame) :
  Forall (fun o => Pandas.columns o = Pandas.columns df) others ->
  Pandas.columns (Pandas.append df others) = Pandas.columns df.
Proof.
  unfold Pandas.append. cbn [Pandas.columns].
  generalize (Pandas.columns df) as acc.
  induction others as [| o others IH]; intros acc H; [reflexivity |].
  apply Forall_cons in H as [Ho H].
  cbn [fold_left]. rewrite Ho, filter_seen by apply incl_refl.
  rewrite app_nil_r. now apply IH.
Qed.

Lemma index_of_NoDup (cols : list string) (i : nat) (c : string) :
  List.NoDup cols -> cols !! i = Some c -> Pandas.index_of c cols = Some i.
Proof.
  intros Hnd. revert i. induction Hnd as [| x cols Hx _ IH]; intros i Hi.
  - now rewrite lookup_nil in Hi.
  - destruct i as [| i]; simpl in Hi.
    + injection Hi as ->. simpl. now rewrite String.eqb_refl.
    + simpl. destruct (String.eqb_spec x c) as [-> | _].
      * exfalso. apply Hx. apply list_elem_of_In.
        now apply list_elem_of_lookup_2 in Hi.
      * now rewrite (IH i Hi).
Qed.

(** A row read back under its own columns is itself. *)
Lemma get_row_self (cols : list string) (rs : list (list Pandas.cell))
  (r : list Pandas.cell) :
  List.NoDup cols -> length r = length cols ->
  map (Pandas.get (Pandas.mkframe cols rs) r) cols = r.
Proof.
  intros Hnd Hlen. apply list_eq. intros i.
  rewrite list_lookup_fmap. unfold Pandas.get. cbn [Pandas.columns].
  destruct (cols !! i) as [c |] eqn:Hc; cbn.
  - rewrite (index_of_NoDup cols i c Hnd Hc).
    destruct (r !! i) as [x |] eqn:Hx; [reflexivity |]. exfalso.
    apply lookup_ge_None in Hx. apply lookup_lt_Some in Hc.
    unfold Pandas.cell in *. lia.
  - symmetry. apply lookup_ge_None. apply lookup_ge_None in Hc.
    unfold Pandas.cell in *. lia.
Qed.

Lemma datadict_keys_NoDup : List.NoDup datadict_keys.
Proof.
  unfold datadict_keys.
  repeat (constructor; [simpl; intros H; repeat destruct H as [H | H];
                         first [discriminate H | contradiction] |]).
  constructor.
Qed.

Lemma append_rows (df : Pandas.DataFrame) (others : list Pandas.DataFrame) :
  Pandas.rows (Pandas.append df others) =
  concat (map (fun o => map (fun r => map (Pandas.get o r)
                                          (Pandas.columns (Pandas.append df others)))
                            (Pandas.rows o))
              (df :: others)).
Proof. reflexivity. Qed.

(** The tables of filings, appended: the 17 columns and the rows of the
    filings in order. *)
Lemma append_records (d0 : Pandas.DataFrame) (others : list Pandas.DataFrame) :
  Forall record (d0 :: others) ->
  Pandas.append d0 others =
  Pandas.mkframe datadict_keys (concat (map Pandas.rows (d0 :: others))).
Proof.
  intros Hall.
  assert (Hcols : Pandas.columns (Pandas.append d0 others) = datadict_keys).
  { apply Forall_cons in Hall as [[H0 _] Hothers].
    rewrite append_columns_same, H0; [reflexivity |].
    eapply List.Forall_impl; [| exact Hothers]. intros o [Ho _]. congruence. }
  assert (Hrows : Pandas.rows (Pandas.append d0 others) =
                  concat (map Pandas.rows (d0 :: others))).
  { rewrite append_rows, Hcols. f_equal. apply map_ext_in. intros o Ho.
    rewrite List.Forall_forall in Hall.
    destruct (Hall o Ho) as [Hco (row & Hrow & Hlen & _)].
    destruct o as [oc ors]. cbn [Pandas.columns Pandas.rows] in *. subst oc.
    rewrite Hrow. cbn [map]. f_equal.
    apply get_row_self; [exact datadict_keys_NoDup | exact Hlen]. }
  destruct (Pandas.append d0 others) as [cols rs].
  cbn [Pandas.columns Pandas.rows] in Hcols, Hrows. now subst.
Qed.

Lemma concat_full_rows (ds : list Pandas.DataFrame) :
  Forall record ds -> Forall full_row (concat (map Pandas.rows ds)).
Proof.
  induction 1 as [| d ds [_ (row & Hrow & Hfull)] _ IH]; [constructor |].
  cbn [map concat]. rewrite Hrow. now constructor.
Qed.

(** A table that [_form_qc] returns is the table of one filing. *)
Lemma form_qc_record (formtext url : string) (d : Pandas.DataFrame) :
  _form_qc formtext url = Return (Some d) -> record d.
Proof.
  unfold _form_qc. destruct (qualifies formtext); [| discriminate].
  destruct (scan_document url (Py.filter_None (Py.splitlines formtext)))
    as (st0 & st & Hstart & Hrun & Hinv & Hurl).
  rewrite Hstart. cbn [obind]. rewrite Hrun. cbn [obind].
  rewrite (DataFrame_of_dict_scan _ _ Hurl).
  destruct (forallb _ (map _ datadict_keys)) eqn:Hall; cbn [obind]; [| discriminate].
  intros H.
  assert (Hd : d = Pandas.mkframe datadict_keys
                     [map (fun c : list string => c !! 0)
                          (map (fun k : string => default [] (datadict st !! k))
                               datadict_keys)])
    by congruence.
  rewrite Hd. split; [reflexivity |]. eexists. split; [reflexivity |].
  split; [now rewrite !length_map |].
  rewrite forallb_forall in Hall. apply List.Forall_forall.
  intros c Hc. apply in_map_iff in Hc as (col & <- & Hcol).
  specialize (Hall col Hcol). apply Nat.eqb_eq in Hall.
  destruct col as [| v col]; [discriminate | discriminate].
Qed.

Lemma omap_id_Forall {A : Type} (P : A -> Prop) (l : list (option A)) :
  Forall (fun o => forall a, o = Some a -> P a) l -> Forall P (omap id l).
Proof.
  induction 1 as [| o l Ho _ IH]; [constructor |].
  destruct o as [a |]; cbn; [constructor; [now apply Ho | exact IH] | exact IH].
Qed.

Section Tables.

Variable holidays_between : option date -> option date -> outcome (list date).
Variable net : list string -> string -> response.
Variable yesterday : date.

(** What the second part of [download] returns: the rows of the filings
    that qualified, in their order, cleaned. *)
Lemma download_forms_table (fuel : nat) (df0 : Pandas.DataFrame) (log : list string)
  (df : Pandas.DataFrame) (log' : list string) :
  download_forms net fuel df0 log = (Return df, log') ->
  exists recs,
    recs <> [] /\ Forall full_row recs /\
    df = Pandas.mkframe datadict_keys (map (imap (cleaned 7 8)) recs).
Proof.
  unfold download_forms, bind, lift. intros H.
  destruct (Pandas.column "file_name" df0) as [names | |]; try discriminate.
  destruct (for_each form_url names) as [urls | |]; try discriminate.
  destruct (_download_thread net fuel urls log) as [[results | |] l1];
    try discriminate.
  destruct (for_each _ results) as [dfs | |] eqn:Hqc; try discriminate.
  destruct (_append_dataframes (omap id dfs)) as [d | |] eqn:Happ;
    try discriminate.
  assert (Hclean : _clean_download d = Return df) by congruence. clear H.
  assert (Hrecs : Forall record (omap id dfs)).
  { apply omap_id_Forall.
    apply (for_each_Forall _ _ _ _
             (fun x y Hy a Ha => form_qc_record (fst x) (snd x) a (eq_trans Hy (f_equal Return Ha)))
             Hqc). }
  unfold _append_dataframes in Happ.
  destruct (omap id dfs) as [| d0 others]; [discriminate |].
  assert (Hd : d = Pandas.append d0 others) by congruence. subst d.
  rewrite (append_records d0 others Hrecs) in Hclean.
  destruct (clean_download_rows _ _ Hclean) as (jd & jo & Hjd & Hjo & ->).
  cbn [Pandas.columns Pandas.rows] in *.
  assert (jd = 7) as -> by (vm_compute in Hjd; congruence).
  assert (jo = 8) as -> by (vm_compute in Hjo; congruence).
  exists (concat (map Pandas.rows (d0 :: others))).
  split; [| split; [exact (concat_full_rows _ Hrecs) | reflexivity]].
  apply Forall_cons in Hrecs as [[_ (row & Hrow & _)] _].
  cbn [map concat]. rewrite Hrow. discriminate.
Qed.

(** X12. [download] never returns an empty or a ragged table.  A table that
    it returns has the 17 columns of [_form_qc] and at least one row;
    every row has 17 cells, none of them missing, and neither ["0"] nor
    ["1"] under [Director] and [Officer]. *)
Theorem download_table (fuel : nat) (start end_ : option date) (form : pyval)
  (log : list string) (df : Pandas.DataFrame) (log' : list string) :
  download holidays_between net yesterday fuel start end_ form log =
    (Return df, log') ->
  Pandas.columns df = datadict_keys /\
  Pandas.rows df <> [] /\
  forall r, In r (Pandas.rows df) ->
    length r = 17 /\
    Forall (fun c : Pandas.cell => c <> None) r /\
    forall col, col = "Director" \/ col = "Officer" ->
      Pandas.get df r col <> Some "0" /\ Pandas.get df r col <> Some "1".
Proof.
  unfold download, bind. intros H.
  destruct (download_index _ _ _ _ _ _ _) as [[d1 | |] l1]; try discriminate.
  assert (Hforms : exists d2 l2, download_forms net fuel d2 l2 = (Return df, log')).
  { destruct (truthy form); [| now exists d1, l1].
    destruct (negb (isinstance_str form)); [discriminate |].
    unfold lift in H.
    destruct (Pandas.loc_eq _ _ d1) as [d2 | |]; try discriminate.
    now exists d2, l1. }
  destruct Hforms as (d2 & l2 & Hforms).
  destruct (download_forms_table _ _ _ _ _ Hforms) as (recs & Hne & Hfull & ->).
  cbn [Pandas.columns Pandas.rows].
  split; [reflexivity |]. split; [now destruct recs |].
  intros r Hr. apply in_map_iff in Hr as (r0 & <- & Hr0).
  rewrite List.Forall_forall in Hfull. destruct (Hfull r0 Hr0) as [Hlen Hsome].
  split; [now rewrite length_imap |]. split.
  - apply Forall_lookup. intros i c Hc. rewrite list_lookup_imap in Hc.
    destruct (r0 !! i) as [c0 |] eqn:Hc0; [| discriminate].
    injection Hc as <-. apply cleaned_Some.
    rewrite Forall_lookup in Hsome. exact (Hsome i c0 Hc0).
  - intros col [-> | ->].
    + pose proof (get_cleaned (Pandas.mkframe datadict_keys recs) 7 8 7
                    "Director" r0 eq_refl) as Hg.
      cbn [Pandas.columns Pandas.rows] in Hg. rewrite Hg.
      destruct (r0 !! 7); [| split; discriminate].
      apply cleaned_not_digit. now left.
    + pose proof (get_cleaned (Pandas.mkframe datadict_keys recs) 7 8 8
                    "Officer" r0 eq_refl) as Hg.
      cbn [Pandas.columns Pandas.rows] in Hg. rewrite Hg.
      destruct (r0 !! 8); [| split; discriminate].
      apply cleaned_not_digit. now right.
Qed.

(** The table of the index rows has the six columns of an index. *)
Lemma download_index_columns (fuel : nat) (start end_ : option date)
  (log : list string) (df : Pandas.DataFrame) (log' : list string) :
  download_index holidays_between net yesterday fuel start end_ log =
    (Return df, log') ->
  Pandas.columns df = idx_columns.
Proof.
  unfold download_index, bind, lift. intros H.
  destruct (_date_list_generator _ _ _ _ _) as [dates | |]; try discriminate.
  destruct (_download_thread net fuel _ log) as [[results | |] l1];
    try discriminate.
  destruct (for_each _ results) as [dfs | |] eqn:Hdfs; try discriminate.
  assert (Happ : _append_dataframes dfs = Return df) by congruence. clear H.
  assert (Hcols : Forall (fun d => Pandas.columns d = idx_columns) dfs).
  { apply (for_each_Forall
             (fun x : string * string => _idx_to_dataframe (fst x) (snd x))
             _ results dfs); [| exact Hdfs].
    intros x y Hy. apply idx_to_dataframe_return in Hy as [-> _]. reflexivity. }
  destruct dfs as [| d0 others]; [discriminate |].
  assert (Hd : df = Pandas.append d0 others) by (cbn in Happ; congruence). subst df.
  apply Forall_cons in Hcols as [H0 Hothers].
  rewrite append_columns_same; [exact H0 |].
  eapply List.Forall_impl; [| exact Hothers]. intros o Ho. congruence.
Qed.

(** X13. A range without a business day, such as a weekend or an end
    before the start: the calendar is asked for the holidays between
    [NaT] and [NaT], and [download] makes no request and returns no
    table.  It fails with what that call raises, and with the
    [IndexError] of [_append_dataframes] when the call returns; the form
    is not looked at. *)
Theorem download_empty_range (fuel : nat) (start end_ : option date)
  (form : pyval) (log : list string) :
  Pandas.bdate_range (default yesterday start) (default yesterday end_) = [] ->
  download holidays_between net yesterday fuel start end_ form log =
    (match holidays_between None None with
     | Return _ => Raise IndexError
     | Raise e => Raise e
     | OutOfFuel => OutOfFuel
     end, log).
Proof.
  intros H. unfold download, download_index, bind, lift, _date_list_generator.
  cbv zeta. cbn [negb]. rewrite H. cbn [Pandas.index_min Pandas.index_max head last].
  destruct (holidays_between None None); reflexivity.
Qed.

Lemma filter_none {A : Type} (p : A -> bool) (l : list A) :
  (forall x, In x l -> p x = false) -> List.filter p l = [].
Proof.
  induction l as [| a l IH]; intros H; [reflexivity |]. simpl.
  rewrite (H a (or_introl eq_refl)). apply IH. intros x Hx. apply H. now right.
Qed.

(** X14. When no row of the index has the form type asked for, [download]
    fails with the [IndexError] of [_append_dataframes] once the index
    batch is done: no filing is requested. *)
Theorem download_form_not_listed (fuel : nat) (start end_ : option date)
  (form : string) (log : list string) (df : Pandas.DataFrame) (log' : list string) :
  download_index holidays_between net yesterday fuel start end_ log =
    (Return df, log') ->
  form <> EmptyString ->
  (forall r, In r (Pandas.rows df) -> Pandas.get df r "form_type" <> Some form) ->
  download holidays_between net yesterday fuel start end_ (PyStr form) log =
    (Raise IndexError, log').
Proof.
  intros Hidx Hform Hrows.
  pose proof (download_index_columns _ _ _ _ _ _ Hidx) as Hcols.
  unfold download, bind. rewrite Hidx. cbn [truthy isinstance_str negb str_value].
  assert (Htrue : Py.truthy_str form = true) by (now destruct form).
  rewrite Htrue. unfold lift, Pandas.loc_eq. rewrite Hcols.
  cbn [Pandas.index_of String.eqb Ascii.eqb Bool.eqb fmap option_fmap option_map].
  rewrite filter_none.
  - reflexivity.
  - intros r Hr. apply bool_decide_eq_false. exact (Hrows r Hr).
Qed.

End Tables.

(** Run the day after 2020-01-02 on [Examples.net_sec], [download] with
    the form [4] returns a table. *)
Lemma download_table_witness :
  exists df log',
    download Examples.holidays_2020 Examples.net_sec (mkdate 2020 1 2) 1
      None None (PyStr "4") [] = (Return df, log') /\
    Pandas.columns df = datadict_keys /\
    Pandas.rows df <> [].
Proof.
  destruct (download Examples.holidays_2020 Examples.net_sec (mkdate 2020 1 2) 1
              None None (PyStr "4") []) as [[df | e |] log'] eqn:Hrun;
    try (vm_compute in Hrun; discriminate Hrun).
  exists df, log'. split; [reflexivity |].
  destruct (download_table _ _ _ _ _ _ _ _ _ _ Hrun) as (Hcols & Hne & _).
  split; [exact Hcols | exact Hne].
Defined.

(** Run on a Sunday with the default dates, [download] asks for the
    Saturday alone; with a calendar that refuses [NaT] the error is that
    of the calendar, and nothing is requested. *)
Lemma download_empty_range_witness :
  Pandas.bdate_range (mkdate 2020 1 4) (mkdate 2020 1 4) = [] /\
  download Documents.holidays_strict Examples.net_sec (mkdate 2020 1 4) 1
    None None (PyStr "4") [] =
  (Raise (TypeError "integer argument expected, got float"), []).
Proof.
  assert (H : Pandas.bdate_range (mkdate 2020 1 4) (mkdate 2020 1 4) = [])
    by (vm_compute; reflexivity).
  split; [exact H |].
  exact (download_empty_range Documents.holidays_strict Examples.net_sec
           (mkdate 2020 1 4) 1 None None (PyStr "4") [] H).
Defined.

(** The index [Examples.idx_one] lists the forms [4] and [10-K]: asking
    for [8-K] fails after the one request for the index. *)
Lemma download_form_not_listed_witness :
  download Examples.holidays_2020 Examples.net_sec (mkdate 2020 1 2) 1
    None None (PyStr "8-K") [] =
  (Raise IndexError,
   ["https://www.sec.gov/Archives/edgar/daily-index/2020/QTR1/company.20200102.idx"]).
Proof.
  destruct (download_index Examples.holidays_2020 Examples.net_sec (mkdate 2020 1 2) 1
              None None []) as [[df | e |] log'] eqn:Hidx;
    try (vm_compute in Hidx; discriminate Hidx).
  assert (Hlog : log' = ["https://www.sec.gov/Archives/edgar/daily-index/2020/QTR1/company.20200102.idx"])
    by (vm_compute in Hidx; congruence).
  rewrite <- Hlog.
  apply (download_form_not_listed Examples.holidays_2020 Examples.net_sec
           (mkdate 2020 1 2) 1 None None "8-K" [] df log' Hidx).
  - discriminate.
  - vm_compute in Hidx. injection Hidx as <- _.
    intros r [<- | [<- | []]]; vm_compute; discriminate.
Defined.

(** ** The value of every field of a record *)

Lemma NoDup_map_inj {A B : Type} (f : A -> B) (l : list A) (a b : A) :
  List.NoDup (map f l) -> In a l -> In b l -> f a = f b -> a = b.
Proof.
  induction l as [| x l IH]; simpl; [tauto |]. intros Hnd Ha Hb Hf.
  apply List.NoDup_cons_iff in Hnd as [Hx Hnd].
  destruct Ha as [-> | Ha], Hb as [-> | Hb]; try reflexivity.
  - exfalso. apply Hx. rewrite Hf. now apply in_map.
  - exfalso. apply Hx. rewrite <- Hf. now apply in_map.
  - now apply IH.
Qed.

(** No key is filled by two tests of the chain. *)
Lemma chain_keys_NoDup :
  List.NoDup (map (fun t : string * string * shape => snd (fst t)) chain).
Proof.
  cbn [chain map fst snd].
  repeat (constructor; [simpl; intros H; repeat destruct H as [H | H];
                         first [discriminate H | contradiction] |]).
  constructor.
Qed.

Lemma chain_key_test (tag tag' key : string) (sh sh' : shape) :
  In (tag, key, sh) chain -> In (tag', key, sh') chain -> tag' = tag /\ sh' = sh.
Proof.
  intros H H'.
  pose proof (NoDup_map_inj (fun t : string * string * shape => snd (fst t))
                chain _ _ chain_keys_NoDup H H' eq_refl) as E.
  now injection E.
Qed.

Lemma tests_from_In (key : string) (tests : list (string * string * shape))
  (tag : string) (sh : shape) :
  In (tag, key, sh) tests ->
  exists tag' sh' rest,
    Scan.tests_from key tests = (tag', key, sh') :: rest /\
    In (tag', key, sh') tests.
Proof.
  induction tests as [| [[t k] s] tests IH]; simpl; [tauto |]. intros H.
  destruct (String.eqb_spec k key) as [-> | Hne].
  - exists t, s, tests. split; [reflexivity | now left].
  - destruct H as [H | H]; [congruence |].
    destruct (IH H) as (t' & s' & rest & E & Hin').
    exists t', s', rest. split; [exact E | now right].
Qed.

(** A line without the tag of a key, read while the value of that key
    is not awaited, leaves the key as it is and does not come to await
    it. *)
Lemma line_step_key_kept (tag key : string) (sh : shape) (line : string)
  (st st' : scan_state) :
  In (tag, key, sh) chain ->
  Py.contains tag line = false ->
  (nextline st = true -> label st <> Some key) ->
  Scan.line_step line st st' ->
  datadict st' !! key = datadict st !! key /\
  (nextline st' = true -> label st' <> Some key).
Proof.
  intros Hin Htag Hlab Hstep.
  destruct Hstep as [k Hnl Hl Hk Hempty | st' Hnl Hchain].
  - simpl. split; [| discriminate].
    rewrite lookup_insert_ne; [reflexivity |]. intros ->. now apply (Hlab Hnl).
  - destruct Hchain as [| t k Hin' Ht Hk | t k Hin' Ht Hk]; simpl.
    + split; [reflexivity | exact Hlab].
    + assert (Hne : k <> key).
      { intros ->. destruct (chain_key_test _ _ _ _ _ Hin Hin') as [-> _]. congruence. }
      split; [now rewrite lookup_insert_ne | rewrite Hnl; discriminate].
    + split; [reflexivity |]. intros _ [= ->].
      destruct (chain_key_test _ _ _ _ _ Hin Hin') as [-> _]. congruence.
Qed.

(** The line that reaches the test of a key with the tag on it, while
    the key has no value: the value is taken from the line, or awaited
    on the next one. *)
Lemma scan_line_tag (tag key : string) (sh : shape) (line : string)
  (st : scan_state) :
  In (tag, key, sh) chain ->
  Scan.invariant st ->
  nextline st = false ->
  datadict st !! key = Some [] ->
  Forall (fun t => Py.contains t line = false) (Scan.tags_before key chain) ->
  Py.contains tag line = true ->
  scan_line st line =
  Return (match sh with
          | SameLine =>
              mkstate (<[key := [line_value line]]> (datadict st)) false (label st)
          | NextLine => mkstate (datadict st) true (Some key)
          end).
Proof.
  intros Hin Hinv Hnl Hkey Hbefore Htag.
  destruct (Scan.inv_url _ Hinv) as [u Hu].
  unfold scan_line. rewrite Hnl.
  rewrite (scan_chain_until key chain line st Hbefore).
  destruct (tests_from_In key chain tag sh Hin) as (t' & s' & rest & -> & Hin').
  destruct (chain_key_test _ _ _ _ _ Hin Hin') as [-> ->].
  cbn [scan_chain]. rewrite Htag. unfold append_value, getitem. rewrite Hu, Hkey.
  cbn [obind length Nat.eqb negb default app]. rewrite Hnl. now destruct sh.
Qed.

(** The table of a state of the invariant: an error when a key has no
    value, and otherwise one row that holds the value of each key. *)
Lemma DataFrame_of_dict_empty (st : scan_state) (key : string) :
  Scan.invariant st ->
  In key datadict_keys ->
  datadict st !! key = Some [] ->
  Pandas.DataFrame_of_dict datadict_keys (datadict st) = Raise ValueError.
Proof.
  intros Hinv Hkey Hempty. destruct (Scan.inv_url _ Hinv) as [u Hu].
  rewrite (DataFrame_of_dict_scan _ _ Hu).
  destruct (forallb _ (columns_of (datadict st))) eqn:Hall; [| reflexivity].
  rewrite forallb_forall in Hall.
  assert (Hin : In (default [] (datadict st !! key)) (columns_of (datadict st)))
    by (apply in_map_iff; exists key; split; [reflexivity | exact Hkey]).
  specialize (Hall _ Hin). rewrite Hempty in Hall. discriminate Hall.
Qed.

Lemma DataFrame_of_dict_key (st : scan_state) (df : Pandas.DataFrame)
  (key v : string) :
  Scan.invariant st ->
  In key datadict_keys ->
  datadict st !! key = Some [v] ->
  Pandas.DataFrame_of_dict datadict_keys (datadict st) = Return df ->
  exists row, Pandas.rows df = [row] /\ Pandas.get df row key = Some v.
Proof.
  intros Hinv Hkey Hv Hdf. destruct (Scan.inv_url _ Hinv) as [u Hu].
  rewrite (DataFrame_of_dict_scan _ _ Hu) in Hdf.
  destruct (forallb _ (columns_of (datadict st))); [| discriminate].
  assert (Hd : df = Pandas.mkframe datadict_keys
                      [map (fun c : list string => c !! 0) (columns_of (datadict st))])
    by congruence.
  rewrite Hd. eexists. split; [reflexivity |].
  apply list_elem_of_In, list_elem_of_lookup_1 in Hkey as [j Hj].
  unfold Pandas.get. cbn [Pandas.columns].
  rewrite (index_of_NoDup _ _ _ datadict_keys_NoDup Hj).
  rewrite !list_lookup_fmap, Hj. cbn. now rewrite Hv.
Qed.

(** X7. The value of a field is read at the first line that holds its tag.
    In a document that [_form_qc] turns into a record, take a test of the
    chain and the first line that holds its tag; if the scan is not
    waiting for a value when it reads this line, and the line holds none
    of the tags tested earlier in the chain, then the record has under
    the key of the test this line without its markup, for a tag whose
    value is on its own line, and the line that follows it, whatever it
    holds, for a tag whose value is on the next line. *)
Theorem form_qc_field_value (formtext url tag key : string) (sh : shape)
  (pre post : list string) (line : string) (df : Pandas.DataFrame) :
  In (tag, key, sh) chain ->
  Py.filter_None (Py.splitlines formtext) = (pre ++ line :: post)%list ->
  Forall (fun l => Py.contains tag l = false) pre ->
  Py.contains tag line = true ->
  Scan.pending_after url pre = false ->
  Forall (fun t => Py.contains t line = false) (Scan.tags_before key chain) ->
  _form_qc formtext url = Return (Some df) ->
  exists row,
    Pandas.rows df = [row] /\
    match sh with
    | SameLine => Pandas.get df row key = Some (line_value line)
    | NextLine =>
        exists next rest,
          post = next :: rest /\
          Pandas.get df row key = Some (line_value next)
    end.
Proof.
  intros Hin Hlines Hpre Htag Hpending Hbefore Hrun.
  pose proof chain_keys as Hchain. rewrite List.Forall_forall in Hchain.
  destruct (Hchain _ Hin) as (Hkey & Hne & _). cbn [fst snd] in Hkey, Hne.
  unfold _form_qc in Hrun. destruct (qualifies formtext); [| discriminate].
  rewrite Hlines in Hrun.
  destruct (scan_start_invariant url) as (st0 & Hstart & Hinv0 & Hnl0 & Hempty).
  rewrite Hstart in Hrun. cbn [obind] in Hrun. rewrite scan_app in Hrun.
  destruct (scan_invariant pre st0 Hinv0) as (st1 & Hrun1 & Hinv1).
  rewrite Hrun1 in Hrun. cbn [obind scan] in Hrun.
  assert (Hkey1 : datadict st1 !! key = Some []).
  { destruct (scan_preserves
                (fun s => datadict s !! key = Some [] /\
                          (nextline s = true -> label s <> Some key))
                pre st0 st1) as [[H _] _];
      [exact Hinv0 | | | exact Hrun1 | exact H].
    - split; [now apply Hempty | rewrite Hnl0; discriminate].
    - intros l s s' Hl _ [Hs Hlab] Hstep. rewrite List.Forall_forall in Hpre.
      destruct (line_step_key_kept tag key sh l s s' Hin (Hpre l Hl) Hlab Hstep)
        as [E Hlab'].
      split; [now rewrite E | exact Hlab']. }
  assert (Hnl1 : nextline st1 = false).
  { unfold Scan.pending_after in Hpending. rewrite Hstart in Hpending.
    cbn [obind] in Hpending. now rewrite Hrun1 in Hpending. }
  rewrite (scan_line_tag tag key sh line st1 Hin Hinv1 Hnl1 Hkey1 Hbefore Htag) in Hrun.
  cbn [obind] in Hrun.
  assert (Hfilled : forall (v : string) (lab : option string) (rest : list string),
             (try st := scan rest (mkstate (<[key := [v]]> (datadict st1)) false lab) in
              try df := Pandas.DataFrame_of_dict datadict_keys (datadict st) in
              Return (Some df)) = Return (Some df) ->
             exists row, Pandas.rows df = [row] /\ Pandas.get df row key = Some v).
  { intros v lab rest H.
    pose proof (invariant_fill st1 key v lab Hinv1 Hkey Hne) as Hinv2.
    set (st2 := mkstate (<[key := [v]]> (datadict st1)) false lab) in *.
    destruct (scan rest st2) as [st3 | e |] eqn:Hrun3; try discriminate.
    cbn [obind] in H.
    destruct (scan_preserves (fun s => datadict s !! key = Some [v]) rest st2 st3)
      as [Hk3 Hinv3]; [exact Hinv2 | apply lookup_insert_eq | | exact Hrun3 |].
    { intros l s s' _ _ Hs Hstep. exact (line_step_filled_kept l s s' _ _ Hs Hstep). }
    destruct (Pandas.DataFrame_of_dict datadict_keys (datadict st3))
      as [df3 | e |] eqn:Hdf; try discriminate.
    cbn [obind] in H. assert (E : df3 = df) by congruence. subst df3.
    exact (DataFrame_of_dict_key st3 df key v Hinv3 Hkey Hk3 Hdf). }
  destruct sh.
  - exact (Hfilled _ _ _ Hrun).
  - destruct post as [| next rest].
    + cbn [scan obind] in Hrun.
      assert (Hinv2 : Scan.invariant (mkstate (datadict st1) true (Some key))).
      { destruct (scan_line_step line st1 Hinv1) as (st2 & Hline2 & _ & Hinv2).
        rewrite (scan_line_tag tag key NextLine line st1 Hin Hinv1 Hnl1 Hkey1 Hbefore Htag)
          in Hline2.
        congruence. }
      rewrite (DataFrame_of_dict_empty _ key Hinv2 Hkey Hkey1) in Hrun.
      discriminate Hrun.
    + cbn [scan] in Hrun. unfold scan_line in Hrun at 1.
      cbn [nextline label datadict] in Hrun.
      unfold append_value, getitem in Hrun. rewrite Hkey1 in Hrun.
      cbn [obind default app] in Hrun.
      destruct (Hfilled _ _ _ Hrun) as (row & Hrow & Hget).
      exists row. split; [exact Hrow |]. exists next, rest.
      split; [reflexivity | exact Hget].
Qed.

(** In [Examples.form_one] the number of shares is on the line after its
    tag, and the issuer on the line of its own tag. *)
Lemma form_qc_field_value_witness :
  exists df row,
    _form_qc Examples.form_one "u" = Return (Some df) /\
    Pandas.rows df = [row] /\
    Pandas.get df row "Number of Shares" = Some "100".
Proof.
  pose proof (form_qc_field_value Examples.form_one "u"
                "<transactionShares>" "Number of Shares" NextLine
                (Examples.form_head ++
                 [ "<transactionDate>"; "<value>2020-01-02</value>";
                   "</transactionDate>";
                   "<transactionCode>S</transactionCode>" ])%list
                (tl Examples.form_tail)
                "<transactionShares>") as H.
  destruct (_form_qc Examples.form_one "u") as [[df |] | e |] eqn:Hrun;
    try (vm_compute in Hrun; discriminate Hrun).
  destruct (H df) as (row & Hrows & next & rest & Hpost & Hget).
  - in_list.
  - vm_compute. reflexivity.
  - repeat (apply List.Forall_cons; [reflexivity |]). apply List.Forall_nil.
  - reflexivity.
  - vm_compute. reflexivity.
  - repeat (apply List.Forall_cons; [reflexivity |]). apply List.Forall_nil.
  - reflexivity.
  - exists df, row. split; [reflexivity |]. split; [exact Hrows |].
    rewrite Hget. cbn [tl Examples.form_tail] in Hpost.
    injection Hpost as <- _. reflexivity.
Defined.

(** ** The list of dates, on examples *)

(** The week of Christmas 2020, without the weekends: the Friday is a
    holiday of [Examples.holidays_2020]. *)
Lemma date_list_business_days_witness :
  Calendar.valid (mkdate 2020 12 21) /\
  _date_list_generator Examples.holidays_2020
    (mkdate 2020 12 21) (mkdate 2020 12 27) false false =
    Return [mkdate 2020 12 21; mkdate 2020 12 22; mkdate 2020 12 23;
            mkdate 2020 12 24] /\
  StronglySorted date_lt
    [mkdate 2020 12 21; mkdate 2020 12 22; mkdate 2020 12 23; mkdate 2020 12 24] /\
  Forall (fun d => Calendar.is_weekend d = false /\ d <> mkdate 2020 12 25)
    [mkdate 2020 12 21; mkdate 2020 12 22; mkdate 2020 12 23; mkdate 2020 12 24].
Proof.
  assert (Hv : Calendar.valid (mkdate 2020 12 21))
    by (unfold Calendar.valid; simpl; lia).
  assert (Hrun : _date_list_generator Examples.holidays_2020
                   (mkdate 2020 12 21) (mkdate 2020 12 27) false false =
                 Return [mkdate 2020 12 21; mkdate 2020 12 22; mkdate 2020 12 23;
                         mkdate 2020 12 24])
    by (vm_compute; reflexivity).
  split; [exact Hv |]. split; [exact Hrun |].
  destruct (date_list_business_days Examples.holidays_2020 _ _ false _ Hv Hrun)
    as (Hsorted & _ & Hdays & Hfree).
  split; [exact Hsorted |].
  specialize (Hfree [mkdate 2020 12 25] ltac:(vm_compute; reflexivity)).
  rewrite List.Forall_forall in Hdays, Hfree. apply List.Forall_forall.
  intros d Hd. split; [exact (proj1 (Hdays d Hd)) |].
  intros ->. apply (Hfree _ Hd). now left.
Defined.

(** The same week from its Friday on, with the weekends kept. *)
Lemma date_list_all_days_witness :
  Calendar.valid (mkdate 2020 12 25) /\
  _date_list_generator Examples.holidays_2020
    (mkdate 2020 12 25) (mkdate 2020 12 27) true false =
    Return [mkdate 2020 12 25; mkdate 2020 12 26; mkdate 2020 12 27].
Proof.
  assert (Hv : Calendar.valid (mkdate 2020 12 25))
    by (unfold Calendar.valid; simpl; lia).
  split; [exact Hv |].
  destruct (date_list_all_days Examples.holidays_2020
              (mkdate 2020 12 25) (mkdate 2020 12 27) false Hv) as [Hrun _].
  rewrite Hrun. reflexivity.
Defined.

(** ** The requests of [download] *)

Lemma for_each_In {A B : Type} (f : A -> outcome B) (xs : list A) (ys : list B)
  (y : B) :
  for_each f xs = Return ys -> In y ys -> exists x, In x xs /\ f x = Return y.
Proof.
  revert ys. induction xs as [| x xs IH]; intros ys H Hy; simpl in H.
  - injection H as <-. contradiction.
  - destruct (f x) as [y0 | |] eqn:Hx; simpl in H; try discriminate.
    destruct (for_each f xs) as [ys' | |]; simpl in H; try discriminate.
    injection H as <-. destruct Hy as [<- | Hy].
    + exists x. split; [now left | exact Hx].
    + destruct (IH ys' eq_refl Hy) as (x' & Hx' & Hf). exists x'. split; [now right | exact Hf].
Qed.

Section Requests.

Variable holidays_between : option date -> option date -> outcome (list date).
Variable net : list string -> string -> response.
Variable yesterday : date.

(** The URL of the filing of a row of [df]. *)
Abbreviation filing_of df u :=
  (exists row name,
      In row (Pandas.rows df) /\
      Pandas.get df row "file_name" = Some name /\
      u = "https://www.sec.gov/Archives/" ++ name).

(** The second part of [download] requests filings of the rows of its
    table and nothing else, whatever its outcome. *)
Lemma download_forms_log (fuel : nat) (df0 : Pandas.DataFrame) (log : list string)
  (r : outcome Pandas.DataFrame) (log' : list string) :
  download_forms net fuel df0 log = (r, log') ->
  exists reqs, log' = (reqs ++ log)%list /\ Forall (fun u => filing_of df0 u) reqs.
Proof.
  unfold download_forms, bind, lift. intros H.
  destruct (Pandas.column "file_name" df0) as [names | |] eqn:Hnames;
    try (injection H as <- <-; exists []; split; [reflexivity | constructor]).
  destruct (for_each form_url names) as [urls | |] eqn:Hurls;
    try (injection H as <- <-; exists []; split; [reflexivity | constructor]).
  destruct (_download_thread net fuel urls log) as [r1 l1] eqn:H1.
  destruct (download_thread_log net fuel urls log r1 l1 H1) as (reqs & -> & Hreqs & _).
  exists reqs. split.
  - destruct r1 as [results | |]; [| now injection H as _ <- ..].
    destruct (for_each _ results) as [dfs | |]; [| now injection H as _ <- ..].
    destruct (_append_dataframes (omap id dfs)) as [d | |];
      now injection H as _ <-.
  - eapply List.Forall_impl; [| exact Hreqs]. intros u Hu.
    destruct (for_each_In _ _ _ _ Hurls Hu) as (x & Hx & Hf).
    unfold Pandas.column in Hnames.
    destruct (Pandas.index_of "file_name" (Pandas.columns df0)); [| discriminate].
    assert (Hn : names = map (fun r => Pandas.get df0 r "file_name") (Pandas.rows df0))
      by congruence.
    rewrite Hn in Hx. apply in_map_iff in Hx as (row & Hrow & Hin).
    destruct x as [name |]; [| discriminate]. cbn [form_url] in Hf.
    exists row, name. split; [exact Hin |]. split; [exact Hrow | congruence].
Qed.

(** X15. The log of [download] is the requests of the index batch
    followed by those of the filing batch, whatever its outcome.  The
    first are daily indices.  A filing is requested only when the index
    batch has returned its table, after the index of every date of the
    range was requested, and every request made from then on is for the
    file of a row of that table. *)
Theorem download_request_order (fuel : nat) (start end_ : option date)
  (form : pyval) (log : list string) (r : outcome Pandas.DataFrame)
  (log' : list string) :
  download holidays_between net yesterday fuel start end_ form log = (r, log') ->
  exists r1 idx_reqs form_reqs,
    download_index holidays_between net yesterday fuel start end_ log =
      (r1, (idx_reqs ++ log)%list) /\
    log' = (form_reqs ++ idx_reqs ++ log)%list /\
    Forall (fun u => exists d, u = index_url d) idx_reqs /\
    (form_reqs <> [] ->
     exists dfi dates,
       r1 = Return dfi /\
       _date_list_generator holidays_between
         (default yesterday start) (default yesterday end_) false false =
         Return dates /\
       (forall d, In d dates -> In (index_url d) idx_reqs) /\
       Forall (fun u => filing_of dfi u) form_reqs).
Proof.
  unfold download, bind. intros H.
  destruct (download_index _ _ _ _ _ _ _) as [r1 l1] eqn:Hidx.
  destruct (download_index_log _ _ _ _ _ _ _ _ _ Hidx) as (reqs & -> & Hreqs & Hret).
  destruct r1 as [d1 | e |];
    try (injection H as <- <-; eexists; exists reqs, [];
         split; [reflexivity |]; split; [reflexivity |];
         split; [exact Hreqs | congruence]).
  destruct (Hret d1 eq_refl) as [Hne (dates & Hdates & Hall)].
  assert (Hforms :
    (exists d2, download_forms net fuel d2 (reqs ++ log)%list = (r, log') /\
                Pandas.columns d2 = Pandas.columns d1 /\
                forall row, In row (Pandas.rows d2) -> In row (Pandas.rows d1)) \/
    log' = (reqs ++ log)%list).
  { destruct (truthy form); [| left; exists d1; now split].
    destruct (negb (isinstance_str form)); [right; now injection H as _ <- |].
    unfold lift, Pandas.loc_eq in H.
    destruct (Pandas.index_of "form_type" (Pandas.columns d1));
      [| right; now injection H as _ <-].
    left. eexists. split; [exact H |]. split; [reflexivity |].
    cbn [Pandas.rows]. intros row Hrow. now apply filter_In in Hrow as [Hrow _]. }
  destruct Hforms as [(d2 & Hforms & Hcols & Hrows) | ->].
  - destruct (download_forms_log _ _ _ _ _ Hforms) as (freqs & -> & Hfreqs).
    exists (Return d1), reqs, freqs. split; [reflexivity |]. split; [reflexivity |].
    split; [exact Hreqs |]. intros _. exists d1, dates.
    split; [reflexivity |]. split; [exact Hdates |]. split; [exact Hall |].
    eapply List.Forall_impl; [| exact Hfreqs].
    intros u (row & name & Hrow & Hname & ->). exists row, name.
    split; [exact (Hrows row Hrow) |]. split; [| reflexivity].
    unfold Pandas.get in *. now rewrite <- Hcols.
  - exists (Return d1), reqs, []. split; [reflexivity |]. split; [reflexivity |].
    split; [exact Hreqs | congruence].
Qed.

(** X16. The filter on the form type: with a form that is a non-empty string,
    every filing that [download] requests is the file of an index row
    whose form type is that string. *)
Theorem download_fetches_form (fuel : nat) (start end_ : option date)
  (form : string) (log : list string) (dfi : Pandas.DataFrame) (l1 : list string)
  (r : outcome Pandas.DataFrame) (log' : list string) :
  form <> EmptyString ->
  download_index holidays_between net yesterday fuel start end_ log =
    (Return dfi, l1) ->
  download holidays_between net yesterday fuel start end_ (PyStr form) log =
    (r, log') ->
  exists form_reqs,
    log' = (form_reqs ++ l1)%list /\
    Forall (fun u =>
              exists row name,
                In row (Pandas.rows dfi) /\
                Pandas.get dfi row "form_type" = Some form /\
                Pandas.get dfi row "file_name" = Some name /\
                u = "https://www.sec.gov/Archives/" ++ name)
           form_reqs.
Proof.
  intros Hform Hidx H.
  unfold download, bind in H. rewrite Hidx in H.
  cbn [truthy isinstance_str negb str_value] in H.
  assert (Htrue : Py.truthy_str form = true) by (now destruct form).
  rewrite Htrue in H. unfold lift, Pandas.loc_eq in H.
  destruct (Pandas.index_of "form_type" (Pandas.columns dfi));
    [| injection H as _ <-; exists []; split; [reflexivity | constructor]].
  destruct (download_forms_log _ _ _ _ _ H) as (freqs & -> & Hfreqs).
  exists freqs. split; [reflexivity |].
  eapply List.Forall_impl; [| exact Hfreqs].
  intros u (row & name & Hrow & Hname & ->). cbn [Pandas.rows] in Hrow.
  apply filter_In in Hrow as [Hrow Hmatch]. apply bool_decide_eq_true in Hmatch.
  exists row, name. split; [exact Hrow |]. split; [exact Hmatch |].
  split; [exact Hname | reflexivity].
Qed.

End Requests.

(** Run the day after 2020-01-02 on [Examples.net_sec] with the form
    [4]: the index, then the one filing of form 4. *)
Lemma download_request_order_witness :
  exists r idx_reqs form_reqs,
    download Examples.holidays_2020 Examples.net_sec (mkdate 2020 1 2) 1
      None None (PyStr "4") [] = (r, (form_reqs ++ idx_reqs)%list) /\
    idx_reqs =
      [ "https://www.sec.gov/Archives/edgar/daily-index/2020/QTR1/company.20200102.idx" ] /\
    form_reqs =
      [ "https://www.sec.gov/Archives/edgar/data/320193/0000320193-20-000001.txt" ].
Proof.
  destruct (download Examples.holidays_2020 Examples.net_sec (mkdate 2020 1 2) 1
              None None (PyStr "4") []) as [r log'] eqn:Hrun.
  destruct (download_request_order _ _ _ _ _ _ _ _ _ _ Hrun)
    as (r1 & idx_reqs & form_reqs & Hidx & Hlog & _).
  rewrite app_nil_r in Hidx, Hlog.
  assert (Hi : snd (download_index Examples.holidays_2020 Examples.net_sec
                      (mkdate 2020 1 2) 1 None None []) =
               [ "https://www.sec.gov/Archives/edgar/daily-index/2020/QTR1/company.20200102.idx" ])
    by (vm_compute; reflexivity).
  rewrite Hidx in Hi. cbn [snd] in Hi.
  assert (Hl : log' =
    [ "https://www.sec.gov/Archives/edgar/data/320193/0000320193-20-000001.txt";
      "https://www.sec.gov/Archives/edgar/daily-index/2020/QTR1/company.20200102.idx" ])
    by (vm_compute in Hrun; congruence).
  exists r, idx_reqs, form_reqs. split; [now rewrite Hlog |]. split; [exact Hi |].
  rewrite Hl, Hi in Hlog.
  change (["https://www.sec.gov/Archives/edgar/data/320193/0000320193-20-000001.txt"] ++
          ["https://www.sec.gov/Archives/edgar/daily-index/2020/QTR1/company.20200102.idx"] =
          form_reqs ++
          ["https://www.sec.gov/Archives/edgar/daily-index/2020/QTR1/company.20200102.idx"])%list
    in Hlog.
  now apply app_inj_tail in Hlog as [<- _].
Defined.

(** The same run: the filing requested is that of the row of form 4, not
    that of the row of form 10-K. *)
Lemma download_fetches_form_witness :
  exists dfi l1 r log',
    download_index Examples.holidays_2020 Examples.net_sec (mkdate 2020 1 2) 1
      None None [] = (Return dfi, l1) /\
    download Examples.holidays_2020 Examples.net_sec (mkdate 2020 1 2) 1
      None None (PyStr "4") [] = (r, log') /\
    length (Pandas.rows dfi) = 2 /\
    log' = "https://www.sec.gov/Archives/edgar/data/320193/0000320193-20-000001.txt" :: l1.
Proof.
  destruct (download_index Examples.holidays_2020 Examples.net_sec (mkdate 2020 1 2) 1
              None None []) as [[dfi | e |] l1] eqn:Hidx;
    try (vm_compute in Hidx; discriminate Hidx).
  destruct (download Examples.holidays_2020 Examples.net_sec (mkdate 2020 1 2) 1
              None None (PyStr "4") []) as [r log'] eqn:Hrun.
  exists dfi, l1, r, log'. split; [reflexivity |]. split; [reflexivity |].
  destruct (download_fetches_form Examples.holidays_2020 Examples.net_sec
              (mkdate 2020 1 2) 1 None None "4" [] dfi l1 r log'
              ltac:(discriminate) Hidx Hrun) as (form_reqs & Hlog & _).
  vm_compute in Hidx. vm_compute in Hrun.
  split; [injection Hidx as <- _; reflexivity |].
  injection Hidx as _ <-. injection Hrun as _ <-. reflexivity.
Defined.
